(** * NOAA Weather API input plugin: a shallow embedding

    Source: [plugins/inputs/noaa_weather_api/noaa_weather_api.go] and its
    test file.  The plugin polls one observation document per configured
    station, converts three unit-tagged readings to the configured unit
    system and hands one metric per station to an accumulator. *)

From Stdlib Require Import ZArith NArith String Ascii List Bool Permutation.
From Stdlib Require Import Floats.PrimFloat.
From stdpp Require Import base option gmap strings list.

Set Warnings "-inexact-float".
Local Open Scope string_scope.

(** Go's [float64] is IEEE 754 binary64, which is what the primitive
    floats implement. *)
Abbreviation float64 := PrimFloat.float.

(** ** Byte strings

    A Go [string] is a sequence of bytes; [String.string] over [ascii]
    is the same thing. The helpers below are the few functions of Go's
    [strings] package that the modelled code calls. *)
Module strings.

Definition byte_in (lo hi c : ascii) : bool :=
  (N_of_ascii lo <=? N_of_ascii c)%N && (N_of_ascii c <=? N_of_ascii hi)%N.

Definition byte_of (cs : string) (c : ascii) : bool :=
  existsb (Ascii.eqb c) (list_ascii_of_string cs).

(** [strings.Split(s, sep)] for a one-byte separator. *)
Fixpoint Split (s : string) (sep : ascii) : list string :=
  match s with
  | EmptyString => [EmptyString]
  | String c rest =>
      if Ascii.eqb c sep then EmptyString :: Split rest sep
      else match Split rest sep with
           | [] => [String c EmptyString]
           | e :: es => String c e :: es
           end
  end.

(** [strings.Join(elems, sep)]. *)
Fixpoint Join (elems : list string) (sep : string) : string :=
  match elems with
  | [] => ""
  | [e] => e
  | e :: es => e ++ sep ++ Join es sep
  end.

(** [strings.Contains(s, string(c))]. *)
Definition ContainsByte (s : string) (c : ascii) : bool :=
  existsb (Ascii.eqb c) (list_ascii_of_string s).

(** [s[:i]] where [i = strings.LastIndexByte(s, c)], or [None] when the
    byte does not occur ([i = -1]). *)
Fixpoint BeforeLast (s : string) (c : ascii) : option string :=
  match s with
  | EmptyString => None
  | String d rest =>
      match BeforeLast rest c with
      | Some pre => Some (String d pre)
      | None => if Ascii.eqb d c then Some EmptyString else None
      end
  end.

Definition HasPrefix (s prefix : string) : bool := String.prefix prefix s.

(** [strings.LastIndexByte(s, c)]: the index of the last [c], [-1] when
    there is none.  [i] is the index of the first byte of [s] and [found]
    the result so far. *)
Fixpoint LastIndexByte_from (s : string) (c : ascii) (i found : Z) : Z :=
  match s with
  | EmptyString => found
  | String d rest =>
      LastIndexByte_from rest c (i + 1) (if Ascii.eqb d c then i else found)
  end.

Definition LastIndexByte (s : string) (c : ascii) : Z :=
  LastIndexByte_from s c 0 (-1).

(** [strings.TrimSuffix(s, string(c))]: [s] without one trailing [c]. *)
Fixpoint TrimSuffixByte (s : string) (c : ascii) : string :=
  match s with
  | EmptyString => EmptyString
  | String d EmptyString => if Ascii.eqb d c then EmptyString else s
  | String d rest => String d (TrimSuffixByte rest c)
  end.

End strings.

(** ** Go's [fmt.Sprintf], for one string operand

    The only format the plugin formats a path with is
    ["/stations/%s/observations/latest"].  The verbs [%s] and [%%] are
    modelled: the first [%s] prints the operand, a later one prints Go's
    missing-operand marker, and an operand no verb consumed is reported
    at the end. Other verbs do not occur in any call. *)
Module fmt.

Fixpoint Sprintf_go (format : string) (arg : option string) : string :=
  match format with
  | String "%" (String "s" rest) =>
      match arg with
      | Some a => a ++ Sprintf_go rest None
      | None => "%!s(MISSING)" ++ Sprintf_go rest None
      end
  | String "%" (String "%" rest) => String "%" (Sprintf_go rest arg)
  | String c rest => String c (Sprintf_go rest arg)
  | EmptyString =>
      match arg with
      | Some a => "%!(EXTRA string=" ++ a ++ ")"
      | None => ""
      end
  end.

Definition Sprintf (format arg : string) : string := Sprintf_go format (Some arg).

End fmt.

(** ** Go's [net/url]

    [formatURL] builds a relative [URL] value by hand, resolves it against
    the parsed base URL and prints the result.  The functions it reaches
    are modelled here after the library: [PathEscape], [Values.Encode],
    [URL.ResolveReference] and [URL.String], with the escaping helpers
    they share.  [url.Parse] is not modelled: the plugin only stores its
    result, so it is a parameter of the plugin model below. *)
Module url.

Inductive encoding :=
| encodePath | encodePathSegment | encodeHost | encodeZone
| encodeUserPassword | encodeQueryComponent | encodeFragment.

Definition encoding_eqb (a b : encoding) : bool :=
  match a, b with
  | encodePath, encodePath | encodePathSegment, encodePathSegment
  | encodeHost, encodeHost | encodeZone, encodeZone
  | encodeUserPassword, encodeUserPassword
  | encodeQueryComponent, encodeQueryComponent
  | encodeFragment, encodeFragment => true
  | _, _ => false
  end.

Record Userinfo := mkUserinfo {
  username : string;
  password : string;
  passwordSet : bool
}.

Record URL := mkURL {
  Scheme : string;
  Opaque : string;
  User : option Userinfo;
  Host : string;
  Path : string;
  RawPath : string;
  OmitHost : bool;
  ForceQuery : bool;
  RawQuery : string;
  Fragment : string;
  RawFragment : string
}.

Definition isSet {A} (p : option A) : bool :=
  match p with Some _ => true | None => false end.

(** The zero [URL{}], the starting point of a composite literal. *)
Definition zero : URL :=
  mkURL "" "" None "" "" "" false false "" "" "".

Definition ishex (c : ascii) : bool :=
  strings.byte_in "0" "9" c || strings.byte_in "a" "f" c || strings.byte_in "A" "F" c.

Definition unhex (c : ascii) : N :=
  if strings.byte_in "0" "9" c then N_of_ascii c - N_of_ascii "0"
  else if strings.byte_in "a" "f" c then N_of_ascii c - N_of_ascii "a" + 10
  else if strings.byte_in "A" "F" c then N_of_ascii c - N_of_ascii "A" + 10
  else 0.

Definition upperhex (n : N) : ascii :=
  match String.get (N.to_nat n) "0123456789ABCDEF" with
  | Some c => c
  | None => "0"%char
  end.

Definition shouldEscape (c : ascii) (mode : encoding) : bool :=
  if strings.byte_in "a" "z" c || strings.byte_in "A" "Z" c || strings.byte_in "0" "9" c
  then false
  else if (encoding_eqb mode encodeHost || encoding_eqb mode encodeZone)
          && strings.byte_of (String "034" "!$&'()*+,;=:[]<>") c
  then false
  else if strings.byte_of "-_.~" c then false
  else if strings.byte_of "$&+,/:;=?@" c
          && match mode with
             | encodePath | encodePathSegment | encodeUserPassword
             | encodeQueryComponent | encodeFragment => true
             | _ => false
             end
  then match mode with
       | encodePath => Ascii.eqb c "?"
       | encodePathSegment => strings.byte_of "/;,?" c
       | encodeUserPassword => strings.byte_of "@/?:" c
       | encodeQueryComponent => true
       | _ => false
       end
  else if encoding_eqb mode encodeFragment && strings.byte_of "!()*" c then false
  else true.

Fixpoint escape (s : string) (mode : encoding) : string :=
  match s with
  | EmptyString => EmptyString
  | String c rest =>
      if shouldEscape c mode then
        if Ascii.eqb c " " && encoding_eqb mode encodeQueryComponent
        then String "+" (escape rest mode)
        else String "%" (String (upperhex (N.shiftr (N_of_ascii c) 4))
               (String (upperhex (N.land (N_of_ascii c) 15)) (escape rest mode)))
      else String c (escape rest mode)
  end.

(** [unescape] fails ([None]) on a malformed [%] escape and, in host
    mode, on a byte or an escape a host may not hold. *)
Fixpoint unescape (s : string) (mode : encoding) : option string :=
  match s with
  | EmptyString => Some EmptyString
  | String "%" (String a (String b rest)) =>
      let v := ascii_of_N (N.lor (N.shiftl (unhex a) 4) (unhex b)) in
      if negb (ishex a && ishex b) then None
      else if encoding_eqb mode encodeHost && (unhex a <? 8)%N
              && negb (Ascii.eqb a "2" && Ascii.eqb b "5")
      then None
      else if encoding_eqb mode encodeZone
              && negb (Ascii.eqb a "2" && Ascii.eqb b "5")
              && negb (Ascii.eqb v " ") && shouldEscape v encodeHost
      then None
      else option_map (String v) (unescape rest mode)
  | String "%" _ => None
  | String "+" rest =>
      option_map
        (String (if encoding_eqb mode encodeQueryComponent then " "%char else "+"%char))
        (unescape rest mode)
  | String c rest =>
      if (encoding_eqb mode encodeHost || encoding_eqb mode encodeZone)
         && (N_of_ascii c <? 128)%N && shouldEscape c encodeHost
      then None
      else option_map (String c) (unescape rest mode)
  end.

Definition PathEscape (s : string) : string := escape s encodePathSegment.
Definition QueryEscape (s : string) : string := escape s encodeQueryComponent.

Definition validEncoded (s : string) (mode : encoding) : bool :=
  forallb (fun c =>
             if strings.byte_of "!$&'()*+,;=:@[]%" c then true
             else negb (shouldEscape c mode))
          (list_ascii_of_string s).

Definition EscapedPath (u : URL) : string :=
  if negb (String.eqb (RawPath u) "") && validEncoded (RawPath u) encodePath
     && match unescape (RawPath u) encodePath with
        | Some p => String.eqb p (Path u)
        | None => false
        end
  then RawPath u
  else if String.eqb (Path u) "*" then "*"
  else escape (Path u) encodePath.

Definition EscapedFragment (u : URL) : string :=
  if negb (String.eqb (RawFragment u) "") && validEncoded (RawFragment u) encodeFragment
     && match unescape (RawFragment u) encodeFragment with
        | Some f => String.eqb f (Fragment u)
        | None => false
        end
  then RawFragment u
  else escape (Fragment u) encodeFragment.

Definition with_path (u : URL) (path rawpath : string) : URL :=
  mkURL (Scheme u) (Opaque u) (User u) (Host u) path rawpath
        (OmitHost u) (ForceQuery u) (RawQuery u) (Fragment u) (RawFragment u).

(** [u.setPath(p)]: [None] is the error return, which leaves [u] as it
    was. *)
Definition setPath (u : URL) (p : string) : option URL :=
  match unescape p encodePath with
  | None => None
  | Some path =>
      if String.eqb p (escape path encodePath)
      then Some (with_path u path "")
      else Some (with_path u path p)
  end.

(** The loop of [resolvePath] over the [/]-separated elements of the
    joined path.  [dst] is the builder's content after the leading [/]
    written before the loop. *)
Fixpoint resolve_elems (elems : list string) (dst : string) (first : bool)
  : string :=
  match elems with
  | [] => dst
  | elem :: rest =>
      if String.eqb elem "." then resolve_elems rest dst false
      else if String.eqb elem ".." then
        match strings.BeforeLast dst "/" with
        | None => resolve_elems rest "" true
        | Some pre => resolve_elems rest pre first
        end
      else
        resolve_elems rest ((if first then dst else dst ++ "/") ++ elem) false
  end.

Definition resolvePath (base ref : string) : string :=
  let full :=
    match ref with
    | EmptyString => base
    | String "/" _ => ref
    | _ => match strings.BeforeLast base "/" with
           | Some pre => pre ++ "/" ++ ref
           | None => ref
           end
    end in
  if String.eqb full "" then ""
  else
    let elems := strings.Split full "/" in
    let dst := resolve_elems elems "" true in
    let last_elem := List.last elems "" in
    let r := "/" ++ dst
               ++ (if String.eqb last_elem "." || String.eqb last_elem ".."
                   then "/" else "") in
    match r with
    | String _ (String "/" tl) => String "/" tl
    | _ => r
    end.

Definition set_path_or_keep (u : URL) (p : string) : URL :=
  match setPath u p with
  | Some u' => u'
  | None => u
  end.

Definition ResolveReference (u ref : URL) : URL :=
  let url0 :=
    mkURL (if String.eqb (Scheme ref) "" then Scheme u else Scheme ref)
          (Opaque ref) (User ref) (Host ref) (Path ref) (RawPath ref)
          (OmitHost ref) (ForceQuery ref) (RawQuery ref)
          (Fragment ref) (RawFragment ref) in
  if negb (String.eqb (Scheme ref) "") || negb (String.eqb (Host ref) "")
     || isSet (User ref)
  then set_path_or_keep url0 (resolvePath (EscapedPath ref) "")
  else if negb (String.eqb (Opaque ref) "")
  then mkURL (Scheme url0) (Opaque url0) None "" "" (RawPath url0)
             (OmitHost url0) (ForceQuery url0) (RawQuery url0)
             (Fragment url0) (RawFragment url0)
  else
    let url1 :=
      if String.eqb (Path ref) "" && negb (ForceQuery ref)
         && String.eqb (RawQuery ref) ""
      then
        if String.eqb (Fragment ref) ""
        then mkURL (Scheme url0) (Opaque url0) (User url0) (Host url0)
                   (Path url0) (RawPath url0) (OmitHost url0) (ForceQuery url0)
                   (RawQuery u) (Fragment u) (RawFragment u)
        else mkURL (Scheme url0) (Opaque url0) (User url0) (Host url0)
                   (Path url0) (RawPath url0) (OmitHost url0) (ForceQuery url0)
                   (RawQuery u) (Fragment url0) (RawFragment url0)
      else url0 in
    if String.eqb (Path ref) "" && negb (String.eqb (Opaque u) "")
    then mkURL (Scheme url1) (Opaque u) None "" "" (RawPath url1)
               (OmitHost url1) (ForceQuery url1) (RawQuery url1)
               (Fragment url1) (RawFragment url1)
    else
      let url2 :=
        mkURL (Scheme url1) (Opaque url1) (User u) (Host u) (Path url1)
              (RawPath url1) (OmitHost url1) (ForceQuery url1) (RawQuery url1)
              (Fragment url1) (RawFragment url1) in
      set_path_or_keep url2 (resolvePath (EscapedPath u) (EscapedPath ref)).

Definition Userinfo_String (ui : Userinfo) : string :=
  escape (username ui) encodeUserPassword
    ++ (if passwordSet ui then ":" ++ escape (password ui) encodeUserPassword else "").

Definition first_segment (path : string) : string :=
  match strings.Split path "/" with
  | seg :: _ => seg
  | [] => ""
  end.

(** [u.String()], in the order the library writes the parts. *)
Definition String_ (u : URL) : string :=
  let scheme := if String.eqb (Scheme u) "" then "" else Scheme u ++ ":" in
  let body :=
    if negb (String.eqb (Opaque u) "") then scheme ++ Opaque u
    else
      let authority :=
        if negb (String.eqb (Scheme u) "") || negb (String.eqb (Host u) "")
           || isSet (User u)
        then
          if OmitHost u && String.eqb (Host u) "" && negb (isSet (User u))
          then ""
          else
            (if negb (String.eqb (Host u) "") || negb (String.eqb (Path u) "")
                || isSet (User u)
             then "//" else "")
            ++ match User u with
               | Some ui => Userinfo_String ui ++ "@"
               | None => ""
               end
            ++ (if String.eqb (Host u) "" then "" else escape (Host u) encodeHost)
        else "" in
      let path := EscapedPath u in
      let buf := scheme ++ authority in
      let buf :=
        match path with
        | String c _ =>
            if negb (Ascii.eqb c "/") && negb (String.eqb (Host u) "")
            then buf ++ "/" else buf
        | EmptyString => buf
        end in
      let buf :=
        if String.eqb buf "" && strings.ContainsByte (first_segment path) ":"
        then "./" else buf in
      buf ++ path in
  body
    ++ (if ForceQuery u || negb (String.eqb (RawQuery u) "")
        then "?" ++ RawQuery u else "")
    ++ (if String.eqb (Fragment u) "" then "" else "#" ++ EscapedFragment u).

(** [url.Values] is [map[string][]string]. [Encode] walks the keys in
    sorted order. *)
Fixpoint insert_sorted (k : string) (ks : list string) : list string :=
  match ks with
  | [] => [k]
  | k' :: rest =>
      if String.leb k k' then k :: ks else k' :: insert_sorted k rest
  end.

Definition sorted_keys (v : gmap string (list string)) : list string :=
  foldr insert_sorted [] (map fst (map_to_list v)).

Definition Values_Encode (v : gmap string (list string)) : string :=
  strings.Join
    (flat_map (fun k =>
                 map (fun x => QueryEscape k ++ "=" ++ QueryEscape x)
                     (default [] (v !! k)))
              (sorted_keys v))
    "&".

End url.


(** ** Go's [time], [net/http] and telegraf's accumulator

    Only the data the plugin touches. *)
Module time.

Record Time := mkTime {
  Unix : Z;          (* seconds since the epoch *)
  Nanosecond : Z;
  ZoneOffset : Z     (* seconds east of UTC *)
}.

(** A [time.Duration] (and a [config.Duration]) counts nanoseconds. *)
Definition Second : Z := 1000000000.

End time.

Module http.

Definition StatusOK : Z := 200.

(** [http.Header] maps a canonical key to its values.  Every key the
    plugin uses is written in canonical form, so [Add] and [Get] use the
    key as it is. *)
Abbreviation header := (gmap string (list string)).

Definition Header_Add (h : header) (key value : string) : header :=
  <[key := (default [] (h !! key) ++ [value])%list]> h.

Definition Header_Get (h : header) (key : string) : string :=
  match h !! key with
  | Some (v :: _) => v
  | _ => ""
  end.

Record Client := mkClient {
  Timeout : Z
}.

Record Request := mkRequest {
  Method : string;
  URL : url.URL;
  ReqHeader : header;
  Host : string
}.

(** [hasPort] and [removeEmptyPort] of [net/http]: a host that ends in a
    colon with nothing after it loses the colon. *)
Definition hasPort (s : string) : bool :=
  (strings.LastIndexByte s "]" <? strings.LastIndexByte s ":")%Z.

Definition removeEmptyPort (host : string) : string :=
  if hasPort host then strings.TrimSuffixByte host ":" else host.

(** [u.Host = host] on a copy of [u]. *)
Definition with_Host (u : url.URL) (host : string) : url.URL :=
  url.mkURL (url.Scheme u) (url.Opaque u) (url.User u) host (url.Path u)
    (url.RawPath u) (url.OmitHost u) (url.ForceQuery u) (url.RawQuery u)
    (url.Fragment u) (url.RawFragment u).

Record Response := mkResponse {
  Status : string;
  StatusCode : Z;
  Header : header;
  Body : string
}.

End http.

(** A Go [error] is modelled by its message; [None] is [nil]. *)
Abbreviation error := string (only parsing).

Module telegraf.

(** What one [AddFields] call hands to the accumulator. *)
Record Metric := mkMetric {
  Measurement : string;
  Fields : gmap string float64;
  Tags : gmap string string;
  Time : time.Time
}.

(** The accumulator as the test utility keeps it: the metrics added and
    the errors reported, in call order. *)
Record Accumulator := mkAccumulator {
  Metrics : list Metric;
  Errors : list error
}.

Definition empty : Accumulator := mkAccumulator [] [].

Definition AddFields (acc : Accumulator) (measurement : string)
  (fields : gmap string float64) (tags : gmap string string) (t : time.Time)
  : Accumulator :=
  mkAccumulator (Metrics acc ++ [mkMetric measurement fields tags t])%list (Errors acc).

Definition AddError (acc : Accumulator) (err : error) : Accumulator :=
  mkAccumulator (Metrics acc) (Errors acc ++ [err])%list.

End telegraf.

(** ** The plugin *)

Definition defaultStationId : string := "KSUA".
Definition defaultBaseURL : string := "https://api.weather.gov/".
Definition defaultResponseTimeout : Z := time.Second * 5.
Definition defaultUnits : string := "imperial".

Record NOAAWeatherAPI := mkNOAAWeatherAPI {
  StationID : list string;
  BaseURL : string;
  ResponseTimeout : Z;
  Units : string;
  UserAgent : string;
  client : option http.Client;       (* [None] is the nil pointer *)
  baseParsedURL : option url.URL     (* [None] is the nil pointer *)
}.

(** The zero value [&NOAAWeatherAPI{}]. *)
Definition zeroNOAAWeatherAPI : NOAAWeatherAPI :=
  mkNOAAWeatherAPI [] "" 0 "" "" None None.

Record ApiValue := mkApiValue {
  UnitCode : string;
  Value : float64;
  QualityControl : string
}.

Record Status := mkStatus {
  Temperature : ApiValue;
  Humidity : ApiValue;
  BarometricPressure : ApiValue;
  Visibility : ApiValue;
  WindSpeed : ApiValue;
  WindDirection : ApiValue;
  Dewpoint : ApiValue;
  Timestamp : string
}.

(** A call either returns or panics on a nil pointer; a panic in any
    goroutine ends the process. *)
Inductive outcome (A : Type) : Type :=
| Done (a : A)
| Panic.
Arguments Done {A} a.
Arguments Panic {A}.

Definition UnitConversion (n : NOAAWeatherAPI) (value : ApiValue) : float64 :=
  if String.eqb (UnitCode value) "wmoUnit:degC" then
    if String.eqb (Units n) "imperial"
    then (Value value * 9.0 / 5.0 + 32)%float
    else Value value
  else if String.eqb (UnitCode value) "wmoUnit:km_h-1" then
    if String.eqb (Units n) "imperial"
    then (Value value / 1.609)%float
    else Value value
  else if String.eqb (UnitCode value) "wmoUnit:m" then
    if String.eqb (Units n) "imperial"
    then (Value value / 1609.0)%float
    else Value value
  else Value value.

(** [createHTTPClient] raises a timeout under one second to the default
    and stores it back in the receiver. *)
Definition createHTTPClient (n : NOAAWeatherAPI) : NOAAWeatherAPI * http.Client :=
  let timeout :=
    if (ResponseTimeout n <? time.Second)%Z then defaultResponseTimeout
    else ResponseTimeout n in
  (mkNOAAWeatherAPI (StationID n) (BaseURL n) timeout (Units n) (UserAgent n)
     (client n) (baseParsedURL n),
   http.mkClient timeout).

Definition formatURL (n : NOAAWeatherAPI) (path station_id : string)
  : outcome string :=
  let v : gmap string (list string) := {[ "require_qc" := ["false"] ]} in
  let relative :=
    url.mkURL "" "" None "" (fmt.Sprintf path (url.PathEscape station_id)) ""
              false false (url.Values_Encode v) "" "" in
  match baseParsedURL n with
  | None => Panic
  | Some base => Done (url.String_ (url.ResolveReference base relative))
  end.

(** The fields and tags [GatherWeather] builds before it looks at the
    timestamp. *)
Definition weather_fields (n : NOAAWeatherAPI) (status : Status)
  : gmap string float64 :=
  list_to_map
    [ ("pressure", Value (BarometricPressure status));
      ("dewpoint", Value (Dewpoint status));
      ("temperature", UnitConversion n (Temperature status));
      ("humidity", Value (Humidity status));
      ("visibility", UnitConversion n (Visibility status));
      ("wind_degrees", Value (WindDirection status));
      ("wind_speed", UnitConversion n (WindSpeed status)) ].

Definition weather_tags : gmap string string := {[ "station" := "KSUA" ]}.

Definition layout : string := "2006-01-02T15:04:05Z07:00".

(** The path template [Gather] passes to [formatURL]. *)
Definition observation_path : string := "/stations/%s/observations/latest".

(** What a started goroutine does to the accumulator. *)
Abbreviation task := (telegraf.Accumulator -> outcome telegraf.Accumulator).

(** *** The world outside the plugin

    The standard library's parsers and the remote end are parameters:
    [url.Parse], [mime.ParseMediaType], the JSON decoding of a body into
    a [Status], [time.Parse], and what [client.Do] gets back for the
    request of the [i]-th station of a cycle. *)
Section Plugin.

Variable url_Parse : string -> url.URL + error.
Variable client_Do : nat -> http.Client -> http.Request -> http.Response + error.
Variable mime_ParseMediaType : string -> string + error.
Variable json_Decode : string -> Status + error.
Variable time_Parse : string -> string -> time.Time + error.

Definition Init (n : NOAAWeatherAPI) : NOAAWeatherAPI * option error :=
  match url_Parse (BaseURL n) with
  | inr err =>
      (mkNOAAWeatherAPI (StationID n) (BaseURL n) (ResponseTimeout n) (Units n)
         (UserAgent n) (client n) None,
       Some err)
  | inl u =>
      let '(n1, c) :=
        createHTTPClient
          (mkNOAAWeatherAPI (StationID n) (BaseURL n) (ResponseTimeout n)
             (Units n) (UserAgent n) (client n) (Some u)) in
      let n2 :=
        mkNOAAWeatherAPI (StationID n1) (BaseURL n1) (ResponseTimeout n1)
          (Units n1) (UserAgent n1) (Some c) (baseParsedURL n1) in
      if String.eqb (Units n2) "imperial" || String.eqb (Units n2) "metric"
      then (n2, None)
      else if String.eqb (Units n2) ""
      then (mkNOAAWeatherAPI (StationID n2) (BaseURL n2) (ResponseTimeout n2)
              defaultUnits (UserAgent n2) (client n2) (baseParsedURL n2),
            None)
      else (n2, Some ("unknown units: " ++ Units n2))
  end.

(** [http.NewRequest] parses the address with [url.Parse], strips an
    empty port from the host and copies the host into the request; the
    method here is always the valid ["GET"]. *)
Definition http_NewRequest (method addr : string) : http.Request + error :=
  match url_Parse addr with
  | inl u =>
      let host := http.removeEmptyPort (url.Host u) in
      inl (http.mkRequest method (http.with_Host u host) ∅ host)
  | inr err => inr err
  end.

Definition gatherWeatherURL (r : string) : Status + error :=
  match json_Decode r with
  | inr err => inr ("error while decoding JSON response: " ++ err)
  | inl status => inl status
  end.

(** [gatherURL] drops the error of [http.NewRequest] and uses the
    request at once, so a nil request panics; so does a nil client. *)
Definition gatherURL (n : NOAAWeatherAPI) (i : nat) (addr : string)
  : outcome (Status + error) :=
  match http_NewRequest "GET" addr with
  | inr _ => Panic
  | inl req =>
      let req :=
        http.mkRequest (http.Method req) (http.URL req)
          (http.Header_Add
             (http.Header_Add (http.ReqHeader req) "Accept" "application/ld+json")
             "User-Agent" (UserAgent n))
          (http.Host req) in
      match client n with
      | None => Panic
      | Some c =>
          match client_Do i c req with
          | inr err =>
              Done (inr ("error making HTTP request to " ++ addr ++ ": " ++ err))
          | inl resp =>
              if negb (http.StatusCode resp =? http.StatusOK)%Z
              then Done (inr (addr ++ " returned HTTP status " ++ http.Status resp))
              else
                match mime_ParseMediaType
                        (http.Header_Get (http.Header resp) "Content-Type") with
                | inr err => Done (inr err)
                | inl mediaType =>
                    if negb (String.eqb mediaType "application/ld+json")
                    then Done (inr (addr ++ " returned unexpected content type "
                                      ++ mediaType))
                    else Done (gatherWeatherURL (http.Body resp))
                end
          end
      end
  end.

(** On a timestamp that does not parse, the source builds an error value
    with [fmt.Errorf] and drops it: the accumulator is not touched. *)
Definition GatherWeather (n : NOAAWeatherAPI) (acc : telegraf.Accumulator)
  (status : Status) : telegraf.Accumulator :=
  let fields := weather_fields n status in
  let tags := weather_tags in
  match time_Parse layout (Timestamp status) with
  | inr _ => acc
  | inl tm => telegraf.AddFields acc "noaa_weather" fields tags tm
  end.

(** *** Gather

    The loop formats one address per station in the calling goroutine
    and starts one goroutine per station; [wg.Wait] joins them.  Each
    goroutine touches the accumulator at most once, with one call that
    the accumulator serialises, so a cycle is the goroutine bodies run
    in some order. *)
Definition goroutine (n : NOAAWeatherAPI) (i : nat) (addr : string)
  (acc : telegraf.Accumulator) : outcome telegraf.Accumulator :=
  match gatherURL n i addr with
  | Panic => Panic
  | Done (inr err) => Done (telegraf.AddError acc err)
  | Done (inl status) => Done (GatherWeather n acc status)
  end.

(** The goroutines the loop starts, station [i0] onwards. *)
Fixpoint launch (n : NOAAWeatherAPI) (i0 : nat) (stations : list string)
  : outcome (list task) :=
  match stations with
  | [] => Done []
  | station :: rest =>
      match formatURL n observation_path station with
      | Panic => Panic
      | Done addr =>
          match launch n (S i0) rest with
          | Panic => Panic
          | Done ts => Done (goroutine n i0 addr :: ts)
          end
      end
  end.

(** Running the started goroutines to completion, in any order. *)
Inductive joined : list task -> telegraf.Accumulator
                   -> outcome telegraf.Accumulator -> Prop :=
| joined_nil acc :
    joined [] acc (Done acc)
| joined_step before t after acc acc1 r :
    t acc = Done acc1 ->
    joined (before ++ after)%list acc1 r ->
    joined (before ++ t :: after)%list acc r
| joined_panic before t after acc :
    t acc = Panic ->
    joined (before ++ t :: after)%list acc Panic.

(** [Gather n acc r]: a cycle on [n], started with the accumulator in
    state [acc], can end in [r]: the final accumulator and the returned
    error, or a crash. *)
Inductive Gather (n : NOAAWeatherAPI) (acc : telegraf.Accumulator)
  : outcome (telegraf.Accumulator * option error) -> Prop :=
| Gather_crash_in_loop :
    launch n 0 (StationID n) = Panic ->
    Gather n acc Panic
| Gather_crash_in_goroutine ts :
    launch n 0 (StationID n) = Done ts ->
    joined ts acc Panic ->
    Gather n acc Panic
| Gather_return ts acc' :
    launch n 0 (StationID n) = Done ts ->
    joined ts acc (Done acc') ->
    Gather n acc (Done (acc', None)).

(** The schedule in which the goroutines finish in the order they were
    started; it computes. *)
Fixpoint run_in_order (ts : list task) (acc : telegraf.Accumulator)
  : outcome telegraf.Accumulator :=
  match ts with
  | [] => Done acc
  | t :: rest =>
      match t acc with
      | Panic => Panic
      | Done acc1 => run_in_order rest acc1
      end
  end.

Definition Gather_in_order (n : NOAAWeatherAPI) (acc : telegraf.Accumulator)
  : outcome (telegraf.Accumulator * option error) :=
  match launch n 0 (StationID n) with
  | Panic => Panic
  | Done ts =>
      match run_in_order ts acc with
      | Panic => Panic
      | Done acc' => Done (acc', None)
      end
  end.

(** What the stations' fetches come back with, station [i0] onwards:
    the address is formatted and [gatherURL] returns a [Status] or an
    error for each.  [Panic] if one of them does not return. *)
Fixpoint fetches (n : NOAAWeatherAPI) (i0 : nat) (stations : list string)
  : outcome (list (Status + error)) :=
  match stations with
  | [] => Done []
  | station :: rest =>
      match formatURL n observation_path station with
      | Panic => Panic
      | Done addr =>
          match gatherURL n i0 addr with
          | Panic => Panic
          | Done o =>
              match fetches n (S i0) rest with
              | Panic => Panic
              | Done os => Done (o :: os)
              end
          end
      end
  end.

(** The metrics and the error reports one fetch outcome leads to. *)
Definition emitted (n : NOAAWeatherAPI) (o : Status + error)
  : list telegraf.Metric :=
  match o with
  | inl status => telegraf.Metrics (GatherWeather n telegraf.empty status)
  | inr _ => []
  end.

Definition reported (o : Status + error) : list error :=
  match o with
  | inl _ => []
  | inr err => [err]
  end.

(** A task that returns, and whose whole effect is to append what the
    fetch outcome [o] leads to. *)
Definition appends (n : NOAAWeatherAPI) (t : task) (o : Status + error) : Prop :=
  forall acc,
    t acc = Done (telegraf.mkAccumulator
                    (telegraf.Metrics acc ++ emitted n o)%list
                    (telegraf.Errors acc ++ reported o)%list).

End Plugin.

(** ** The world of the test file

    [httptest.NewServer] answers the path of station KSUA with the sample
    document and content type; these stand-ins play the library parsers
    on the inputs the tests produce. *)
Module Test.

(** Splits [s] at the first [sep]: [strings.Cut]. *)
Fixpoint Cut (s : string) (sep : ascii) : string * option string :=
  match s with
  | EmptyString => (EmptyString, None)
  | String c rest =>
      if Ascii.eqb c sep then (EmptyString, Some rest)
      else let '(a, b) := Cut rest sep in (String c a, b)
  end.

(** A stand-in for [url.Parse] on [scheme://host/path?query] and on
    relative references without escapes; everything else is refused. *)
Definition url_Parse (rawURL : string) : url.URL + error :=
  if existsb (fun c => strings.byte_of "%@[]# " c || (N_of_ascii c <? 32)%N
                       || (127 <=? N_of_ascii c)%N)
             (list_ascii_of_string rawURL)
  then inr "parse: unsupported by the stand-in"
  else
    let '(rest, query) := Cut rawURL "?" in
    let query := default "" query in
    match Cut rest ":" with
    | (scheme, Some (String "/" (String "/" hostpath))) =>
        if forallb (strings.byte_in "a" "z") (list_ascii_of_string scheme)
           && negb (String.eqb scheme "")
        then
          let '(host, path) := Cut hostpath "/" in
          inl (url.mkURL scheme "" None host
                 (match path with Some p => String "/" p | None => "" end)
                 "" false false query "" "")
        else inr "parse: unsupported by the stand-in"
    | (_, Some _) => inr "parse: unsupported by the stand-in"
    | (_, None) =>
        if strings.HasPrefix rest "//"
        then inr "parse: unsupported by the stand-in"
        else inl (url.mkURL "" "" None "" rest "" false false query "" "")
    end.

Definition mime_ParseMediaType (v : string) : string + error :=
  if String.eqb v "" then inr "mime: no media type" else inl v.

Definition sampleStatus : Status :=
  mkStatus
    (mkApiValue "wmoUnit:degC" 21 "V")
    (mkApiValue "wmoUnit:percent" 52.802638324228 "V")
    (mkApiValue "wmoUnit:Pa" 101520 "V")
    (mkApiValue "wmoUnit:m" 16090 "C")
    (mkApiValue "wmoUnit:km_h-1" 22.32 "V")
    (mkApiValue "wmoUnit:degree_(angle)" 340 "V")
    (mkApiValue "wmoUnit:degC" 11 "V")
    "2021-11-07T18:50:00+00:00".

(** The body is named, not spelled out; decoding the sample body gives
    [sampleStatus]. *)
Definition sampleStatusResponse : string := "sampleStatusResponse".

Definition json_Decode (body : string) : Status + error :=
  if String.eqb body sampleStatusResponse then inl sampleStatus
  else inr "unexpected end of JSON input".

Definition time_Parse (layout value : string) : time.Time + error :=
  if String.eqb value "2021-11-07T18:50:00+00:00"
  then inl (time.mkTime 1636311000 0 0)
  else inr ("parsing time " ++ value ++ " as " ++ layout).

(** A remote end that serves the sample document for station KSUA and
    answers 404 for any other path. *)
Definition client_Do (i : nat) (c : http.Client) (req : http.Request)
  : http.Response + error :=
  if String.eqb (url.Path (http.URL req)) "/stations/KSUA/observations/latest"
  then inl (http.mkResponse "200 OK" 200
              {[ "Content-Type" := ["application/ld+json"] ]}
              sampleStatusResponse)
  else inl (http.mkResponse "404 Not Found" 404 ∅ "").

Definition Init := Init url_Parse.
Definition GatherWeather := GatherWeather time_Parse.
Definition Gather_in_order :=
  Gather_in_order url_Parse client_Do mime_ParseMediaType json_Decode time_Parse.

(** A receiver as the gather tests build it, before [Init], with the test
    server at a fixed address. *)
Definition config (stations : list string) (units : string) : NOAAWeatherAPI :=
  mkNOAAWeatherAPI stations "http://127.0.0.1:8080" 0 units "" None None.

End Test.


(** ** Inputs the properties are checked on *)

(** The three unit codes the converter's [switch] names. *)
Definition conversion_table : list string :=
  ["wmoUnit:degC"; "wmoUnit:km_h-1"; "wmoUnit:m"].

(** A configuration whose only station is not KSUA. *)
Definition KJFK_config : NOAAWeatherAPI :=
  mkNOAAWeatherAPI ["KJFK"] "https://api.weather.gov/" 0 "metric" "" None None.

(** The same observation with a timestamp that is not RFC 3339. *)
Definition undatedStatus : Status :=
  mkStatus (Temperature Test.sampleStatus) (Humidity Test.sampleStatus)
    (BarometricPressure Test.sampleStatus) (Visibility Test.sampleStatus)
    (WindSpeed Test.sampleStatus) (WindDirection Test.sampleStatus)
    (Dewpoint Test.sampleStatus) "yesterday".

(** What [url.Parse] returns for [http://foo.com]. *)
Definition foo_com : url.URL :=
  url.mkURL "http" "" None "foo.com" "" "" false false "" "" "".

(** The receiver of [TestFormatURL], before [Init]. *)
Definition foo_com_config : NOAAWeatherAPI :=
  mkNOAAWeatherAPI [] "http://foo.com" 0 "metric" "" None None.

(** The receiver the factory registered by [init] builds. *)
Definition newNOAAWeatherAPI : NOAAWeatherAPI :=
  mkNOAAWeatherAPI [] defaultBaseURL defaultResponseTimeout "" "" None None.

(** The unit-system strings the [switch] of [Init] lets through. *)
Definition accepted_units : list string := ["imperial"; "metric"; ""].

(** Station identifiers made of ASCII letters and digits. *)
Definition alnum (c : ascii) : bool :=
  strings.byte_in "a" "z" c || strings.byte_in "A" "Z" c || strings.byte_in "0" "9" c.

Fixpoint alnum_string (s : string) : bool :=
  match s with
  | EmptyString => true
  | String c rest => alnum c && alnum_string rest
  end.

(** A configuration with a timeout of half a second and an unknown unit
    system. *)
Definition kelvin_config : NOAAWeatherAPI :=
  mkNOAAWeatherAPI ["KSUA"] "http://foo.com" 500000000 "kelvin" "agent" None None.

(** The request [gatherURL] hands to the client for an address that
    [url.Parse] turned into [u]. *)
Definition observation_request (n : NOAAWeatherAPI) (u : url.URL) : http.Request :=
  http.mkRequest "GET"
    (http.with_Host u (http.removeEmptyPort (url.Host u)))
    (http.Header_Add (http.Header_Add ∅ "Accept" "application/ld+json")
       "User-Agent" (UserAgent n))
    (http.removeEmptyPort (url.Host u)).

(** A fetched observation whose timestamp [time.Parse] refuses: the one
    outcome that leads to no accumulator call. *)
Definition undated (time_Parse : string -> string -> time.Time + error)
  (o : Status + error) : bool :=
  match o with
  | inl status =>
      match time_Parse layout (Timestamp status) with
      | inl _ => false
      | inr _ => true
      end
  | inr _ => false
  end.

(** A remote end that refuses everything but GET and otherwise answers
    like the test server. *)
Definition get_only_Do (i : nat) (c : http.Client) (req : http.Request)
  : http.Response + error :=
  if String.eqb (http.Method req) "GET" then Test.client_Do i c req
  else inr "method not allowed".

(** A remote end whose replies carry no [Content-Type] header. *)
Definition untyped_Do (i : nat) (c : http.Client) (req : http.Request)
  : http.Response + error :=
  inl (http.mkResponse "200 OK" 200 ∅ Test.sampleStatusResponse).

(** A string without the byte [/]: one path segment. *)
Fixpoint no_slash (s : string) : bool :=
  match s with
  | EmptyString => true
  | String c rest => negb (Ascii.eqb c "/") && no_slash rest
  end.

(** * Properties *)

(** ** The unit converter *)

Lemma UnitConversion_default (n : NOAAWeatherAPI) (value : ApiValue) :
  String.eqb (UnitCode value) "wmoUnit:degC" = false ->
  String.eqb (UnitCode value) "wmoUnit:km_h-1" = false ->
  String.eqb (UnitCode value) "wmoUnit:m" = false ->
  UnitConversion n value = Value value.
Proof.
  intros H1 H2 H3. unfold UnitConversion. now rewrite H1, H2, H3.
Qed.

Lemma UnitConversion_not_imperial (n : NOAAWeatherAPI) (value : ApiValue) :
  String.eqb (Units n) "imperial" = false ->
  UnitConversion n value = Value value.
Proof.
  intros Hu. unfold UnitConversion. rewrite Hu.
  destruct (String.eqb (UnitCode value) "wmoUnit:degC"); [reflexivity |].
  destruct (String.eqb (UnitCode value) "wmoUnit:km_h-1"); [reflexivity |].
  destruct (String.eqb (UnitCode value) "wmoUnit:m"); reflexivity.
Qed.

(** The code and the value decide the result; the quality-control field
    is never read. *)
Lemma UnitConversion_reads_code_and_value (n : NOAAWeatherAPI) (value : ApiValue) :
  UnitConversion n value
  = UnitConversion n (mkApiValue (UnitCode value) (Value value) "").
Proof. reflexivity. Qed.

(** C3, as stated, fails: the bare code [degC] is not one the converter
    matches, so under the imperial system 21 comes back as 21, which is
    not 69.8. *)
Lemma UnitConversion_bare_degC_imperial :
  UnitConversion (mkNOAAWeatherAPI ["KSUA"] "" 0 "imperial" "" None None)
                 (mkApiValue "degC" 21 "V") = 21%float
  /\ 21%float <> 69.8%float.
Proof.
  split; [reflexivity |].
  intros H. apply (f_equal (fun x => PrimFloat.eqb x 21)) in H.
  vm_compute in H. discriminate.
Qed.

(** C3, amended: with the unit code [wmoUnit:degC], the converter maps 21
    to 69.8 when the unit system is imperial and to 21 when it is
    metric, whatever the other fields are. *)
Theorem UnitConversion_degC_21 :
  forall stations base timeout agent c u qc,
    UnitConversion (mkNOAAWeatherAPI stations base timeout "imperial" agent c u)
                   (mkApiValue "wmoUnit:degC" 21 qc) = 69.8%float
    /\ UnitConversion (mkNOAAWeatherAPI stations base timeout "metric" agent c u)
                      (mkApiValue "wmoUnit:degC" 21 qc) = 21%float.
Proof. intros. split; vm_compute; reflexivity. Qed.

(** C7: a unit code outside the conversion table comes back unchanged,
    for every value and every unit system, metric and imperial alike. *)
Theorem UnitConversion_unknown_code_identity :
  forall (n : NOAAWeatherAPI) (value : ApiValue),
    UnitCode value ∉ conversion_table ->
    UnitConversion n value = Value value.
Proof.
  intros n value Hnot. apply UnitConversion_default.
  all: apply String.eqb_neq; intros Heq; apply Hnot; rewrite Heq;
    unfold conversion_table; set_solver.
Qed.

Lemma UnitConversion_unknown_code_identity_witness :
  UnitConversion (mkNOAAWeatherAPI ["KSUA"] "" 0 "imperial" "" None None)
                 (mkApiValue "wmoUnit:Pa" 101520 "V") = 101520%float
  /\ UnitConversion (mkNOAAWeatherAPI ["KSUA"] "" 0 "metric" "" None None)
                    (mkApiValue "wmoUnit:Pa" 101520 "V") = 101520%float.
Proof.
  split.
  - apply (UnitConversion_unknown_code_identity
             (mkNOAAWeatherAPI ["KSUA"] "" 0 "imperial" "" None None)
             (mkApiValue "wmoUnit:Pa" 101520 "V")).
    unfold conversion_table. simpl. intros H.
    repeat (apply elem_of_cons in H as [H | H]; [discriminate H |]).
    now apply elem_of_nil in H.
  - apply (UnitConversion_unknown_code_identity
             (mkNOAAWeatherAPI ["KSUA"] "" 0 "metric" "" None None)
             (mkApiValue "wmoUnit:Pa" 101520 "V")).
    unfold conversion_table. simpl. intros H.
    repeat (apply elem_of_cons in H as [H | H]; [discriminate H |]).
    now apply elem_of_nil in H.
Defined.

(** C9: under any unit-system string other than [imperial], valid or
    not, the converter returns the value unchanged for every unit code,
    which is what it does under [metric]. *)
Theorem UnitConversion_non_imperial_is_metric :
  forall (n : NOAAWeatherAPI) (value : ApiValue),
    Units n <> "imperial" ->
    UnitConversion n value = Value value
    /\ UnitConversion n value
       = UnitConversion
           (mkNOAAWeatherAPI (StationID n) (BaseURL n) (ResponseTimeout n)
              "metric" (UserAgent n) (client n) (baseParsedURL n))
           value.
Proof.
  intros n value Hu.
  rewrite !UnitConversion_not_imperial; [auto | reflexivity |].
  now apply String.eqb_neq.
Qed.

Lemma UnitConversion_non_imperial_is_metric_witness :
  UnitConversion (mkNOAAWeatherAPI ["KSUA"] "" 0 "kelvin" "" None None)
                 (mkApiValue "wmoUnit:degC" 21 "V") = 21%float
  /\ UnitConversion (mkNOAAWeatherAPI ["KSUA"] "" 0 "kelvin" "" None None)
                    (mkApiValue "wmoUnit:degC" 21 "V")
     = UnitConversion (mkNOAAWeatherAPI ["KSUA"] "" 0 "metric" "" None None)
                      (mkApiValue "wmoUnit:degC" 21 "V").
Proof.
  apply (UnitConversion_non_imperial_is_metric
           (mkNOAAWeatherAPI ["KSUA"] "" 0 "kelvin" "" None None)
           (mkApiValue "wmoUnit:degC" 21 "V")).
  simpl. discriminate.
Defined.

(** C10: two readings with the same unit code and the same value convert
    to the same result, whatever their quality-control fields say. *)
Theorem UnitConversion_ignores_qualityControl :
  forall (n : NOAAWeatherAPI) (a b : ApiValue),
    UnitCode a = UnitCode b ->
    Value a = Value b ->
    UnitConversion n a = UnitConversion n b.
Proof.
  intros n a b Hcode Hvalue.
  rewrite (UnitConversion_reads_code_and_value n a),
          (UnitConversion_reads_code_and_value n b).
  now rewrite Hcode, Hvalue.
Qed.

Lemma UnitConversion_ignores_qualityControl_witness :
  UnitConversion (mkNOAAWeatherAPI ["KSUA"] "" 0 "imperial" "" None None)
                 (mkApiValue "wmoUnit:km_h-1" 22.32 "V")
  = UnitConversion (mkNOAAWeatherAPI ["KSUA"] "" 0 "imperial" "" None None)
                   (mkApiValue "wmoUnit:km_h-1" 22.32 "Z").
Proof.
  apply (UnitConversion_ignores_qualityControl
           (mkNOAAWeatherAPI ["KSUA"] "" 0 "imperial" "" None None)
           (mkApiValue "wmoUnit:km_h-1" 22.32 "V")
           (mkApiValue "wmoUnit:km_h-1" 22.32 "Z")); reflexivity.
Defined.

(** ** Initialisation *)

Section InitFacts.

Variable url_Parse : string -> url.URL + error.

Lemma Init_error_or_ready (n n' : NOAAWeatherAPI) :
  Init url_Parse n = (n', None) ->
  exists c u,
    client n' = Some c /\ baseParsedURL n' = Some u
    /\ url_Parse (BaseURL n) = inl u
    /\ StationID n' = StationID n /\ UserAgent n' = UserAgent n.
Proof.
  unfold Init. destruct (url_Parse (BaseURL n)) as [u | err]; [| discriminate].
  unfold createHTTPClient. cbn [StationID BaseURL ResponseTimeout Units UserAgent client baseParsedURL].
  destruct (String.eqb (Units n) "imperial" || String.eqb (Units n) "metric").
  - intros [= <-]. cbn. eauto 10.
  - destruct (String.eqb (Units n) ""); [| discriminate].
    intros [= <-]. cbn. eauto 10.
Qed.

(** C1 fails on the code: an empty unit-system string does pass [Init]
    without an error, but it is replaced by [defaultUnits], which the
    source sets to [imperial], not [metric]. *)
Theorem Init_empty_units_become_imperial :
  forall (n : NOAAWeatherAPI) (u : url.URL),
    Units n = "" ->
    url_Parse (BaseURL n) = inl u ->
    snd (Init url_Parse n) = None
    /\ Units (fst (Init url_Parse n)) = "imperial"
    /\ Units (fst (Init url_Parse n)) <> "metric".
Proof.
  intros n u Hunits Hparse. unfold Init. rewrite Hparse.
  unfold createHTTPClient.
  cbn [StationID BaseURL ResponseTimeout Units UserAgent client baseParsedURL].
  rewrite Hunits. cbn. repeat split. discriminate.
Qed.

End InitFacts.

(** The receiver of [TestDefaultUnits] is the zero value. *)
Lemma Init_empty_units_become_imperial_witness :
  snd (Test.Init zeroNOAAWeatherAPI) = None
  /\ Units (fst (Test.Init zeroNOAAWeatherAPI)) = "imperial"
  /\ Units (fst (Test.Init zeroNOAAWeatherAPI)) <> "metric".
Proof.
  apply (Init_empty_units_become_imperial Test.url_Parse zeroNOAAWeatherAPI url.zero);
    reflexivity.
Defined.

(** ** One observation: [GatherWeather] *)

Section GatherWeatherFacts.

Variable time_Parse : string -> string -> time.Time + error.

Lemma GatherWeather_parsed (n : NOAAWeatherAPI) (acc : telegraf.Accumulator)
  (status : Status) (tm : time.Time) :
  time_Parse layout (Timestamp status) = inl tm ->
  GatherWeather time_Parse n acc status
  = telegraf.mkAccumulator
      (telegraf.Metrics acc
         ++ [telegraf.mkMetric "noaa_weather" (weather_fields n status)
               weather_tags tm])%list
      (telegraf.Errors acc).
Proof. intros H. unfold GatherWeather. now rewrite H. Qed.

Lemma GatherWeather_unparsed (n : NOAAWeatherAPI) (acc : telegraf.Accumulator)
  (status : Status) (err : error) :
  time_Parse layout (Timestamp status) = inr err ->
  GatherWeather time_Parse n acc status = acc.
Proof. intros H. unfold GatherWeather. now rewrite H. Qed.

(** C2, amended: whatever stations are configured, the metric emitted for
    a parsed observation carries exactly one tag, [station], and its
    value is the literal [KSUA]; that is the first configured station
    exactly when the list starts with KSUA. *)
Theorem GatherWeather_station_tag_is_KSUA :
  forall (n : NOAAWeatherAPI) (acc : telegraf.Accumulator) (status : Status)
         (tm : time.Time),
    time_Parse layout (Timestamp status) = inl tm ->
    exists m,
      telegraf.Metrics (GatherWeather time_Parse n acc status)
      = (telegraf.Metrics acc ++ [m])%list
      /\ telegraf.Tags m = {[ "station" := "KSUA" ]}
      /\ telegraf.Tags m !! "station" = Some "KSUA"
      /\ (telegraf.Tags m !! "station" = head (StationID n)
          <-> head (StationID n) = Some "KSUA").
Proof.
  intros n acc status tm Hparse.
  rewrite (GatherWeather_parsed n acc status tm Hparse).
  eexists. split; [reflexivity |]. cbn [telegraf.Tags].
  split; [reflexivity |]. split; [reflexivity |].
  change (weather_tags !! "station") with (Some "KSUA").
  split; congruence.
Qed.

(** C4 fails on the code: the measurement name handed to [AddFields] is
    [noaa_weather], where the README and the tests say [weather]. *)
Theorem GatherWeather_measurement_is_noaa_weather :
  forall (n : NOAAWeatherAPI) (acc : telegraf.Accumulator) (status : Status)
         (tm : time.Time),
    time_Parse layout (Timestamp status) = inl tm ->
    exists m,
      telegraf.Metrics (GatherWeather time_Parse n acc status)
      = (telegraf.Metrics acc ++ [m])%list
      /\ telegraf.Measurement m = "noaa_weather"
      /\ telegraf.Measurement m <> "weather".
Proof.
  intros n acc status tm Hparse.
  rewrite (GatherWeather_parsed n acc status tm Hparse).
  eexists. split; [reflexivity |]. split; [reflexivity | discriminate].
Qed.

(** C6: an observation whose timestamp does not parse leaves the
    accumulator as it was, no metric added and no error reported; one
    whose timestamp parses adds exactly one metric, stamped with the
    parsed time, and reports no error. *)
Theorem GatherWeather_timestamp :
  forall (n : NOAAWeatherAPI) (acc : telegraf.Accumulator) (status : Status),
    (forall err,
        time_Parse layout (Timestamp status) = inr err ->
        GatherWeather time_Parse n acc status = acc)
    /\ (forall tm,
           time_Parse layout (Timestamp status) = inl tm ->
           exists m,
             telegraf.Metrics (GatherWeather time_Parse n acc status)
             = (telegraf.Metrics acc ++ [m])%list
             /\ telegraf.Time m = tm
             /\ telegraf.Errors (GatherWeather time_Parse n acc status)
                = telegraf.Errors acc).
Proof.
  intros n acc status. split.
  - intros err Hparse. now apply GatherWeather_unparsed with err.
  - intros tm Hparse. rewrite (GatherWeather_parsed n acc status tm Hparse).
    eexists. repeat split.
Qed.

End GatherWeatherFacts.

(** C2, as stated, fails: with the single station KJFK configured, the
    metric of a parsed observation is tagged KSUA, which is not the first
    configured station. *)
Lemma GatherWeather_tag_not_first_station :
  head (StationID KJFK_config) = Some "KJFK"
  /\ map (fun m => telegraf.Tags m !! "station")
         (telegraf.Metrics
            (Test.GatherWeather KJFK_config telegraf.empty Test.sampleStatus))
     = [Some "KSUA"]
  /\ map (fun m => telegraf.Tags m !! "station")
         (telegraf.Metrics
            (Test.GatherWeather KJFK_config telegraf.empty Test.sampleStatus))
     <> [head (StationID KJFK_config)].
Proof.
  split; [reflexivity |]. split; [vm_compute; reflexivity |].
  vm_compute. discriminate.
Qed.

Lemma GatherWeather_station_tag_is_KSUA_witness :
  exists m,
    telegraf.Metrics (Test.GatherWeather KJFK_config telegraf.empty Test.sampleStatus)
    = (telegraf.Metrics telegraf.empty ++ [m])%list
    /\ telegraf.Tags m = {[ "station" := "KSUA" ]}
    /\ telegraf.Tags m !! "station" = Some "KSUA"
    /\ (telegraf.Tags m !! "station" = head (StationID KJFK_config)
        <-> head (StationID KJFK_config) = Some "KSUA").
Proof.
  apply (GatherWeather_station_tag_is_KSUA Test.time_Parse KJFK_config
           telegraf.empty Test.sampleStatus (time.mkTime 1636311000 0 0)).
  reflexivity.
Defined.

Lemma GatherWeather_measurement_is_noaa_weather_witness :
  exists m,
    telegraf.Metrics
      (Test.GatherWeather (Test.config ["KSUA"] "metric") telegraf.empty
         Test.sampleStatus)
    = (telegraf.Metrics telegraf.empty ++ [m])%list
    /\ telegraf.Measurement m = "noaa_weather"
    /\ telegraf.Measurement m <> "weather".
Proof.
  apply (GatherWeather_measurement_is_noaa_weather Test.time_Parse
           (Test.config ["KSUA"] "metric") telegraf.empty Test.sampleStatus
           (time.mkTime 1636311000 0 0)).
  reflexivity.
Defined.

Lemma GatherWeather_timestamp_witness :
  Test.GatherWeather KJFK_config telegraf.empty undatedStatus = telegraf.empty
  /\ exists m,
      telegraf.Metrics (Test.GatherWeather KJFK_config telegraf.empty Test.sampleStatus)
      = (telegraf.Metrics telegraf.empty ++ [m])%list
      /\ telegraf.Time m = time.mkTime 1636311000 0 0
      /\ telegraf.Errors (Test.GatherWeather KJFK_config telegraf.empty Test.sampleStatus)
         = telegraf.Errors telegraf.empty.
Proof.
  split.
  - apply (proj1 (GatherWeather_timestamp Test.time_Parse KJFK_config
                    telegraf.empty undatedStatus)
             "parsing time yesterday as 2006-01-02T15:04:05Z07:00").
    reflexivity.
  - apply (proj2 (GatherWeather_timestamp Test.time_Parse KJFK_config
                    telegraf.empty Test.sampleStatus)
             (time.mkTime 1636311000 0 0)).
    reflexivity.
Defined.

(** ** A gather cycle *)

Section GatherFacts.

Variable url_Parse : string -> url.URL + error.
Variable client_Do : nat -> http.Client -> http.Request -> http.Response + error.
Variable mime_ParseMediaType : string -> string + error.
Variable json_Decode : string -> Status + error.
Variable time_Parse : string -> string -> time.Time + error.

Local Abbreviation gatherURL :=
  (gatherURL url_Parse client_Do mime_ParseMediaType json_Decode).
Local Abbreviation goroutine :=
  (goroutine url_Parse client_Do mime_ParseMediaType json_Decode time_Parse).
Local Abbreviation launch :=
  (launch url_Parse client_Do mime_ParseMediaType json_Decode time_Parse).
Local Abbreviation fetches :=
  (fetches url_Parse client_Do mime_ParseMediaType json_Decode).
Local Abbreviation Gather :=
  (Gather url_Parse client_Do mime_ParseMediaType json_Decode time_Parse).
Local Abbreviation Gather_in_order :=
  (Gather_in_order url_Parse client_Do mime_ParseMediaType json_Decode time_Parse).
Local Abbreviation emitted := (emitted time_Parse).
Local Abbreviation GatherWeather := (GatherWeather time_Parse).
Local Abbreviation appends := (appends time_Parse).

Lemma goroutine_appends (n : NOAAWeatherAPI) (i : nat) (addr : string)
  (o : Status + error) :
  gatherURL n i addr = Done o ->
  appends n (goroutine n i addr) o.
Proof.
  intros Hfetch [ms es]. unfold goroutine. rewrite Hfetch.
  destruct o as [status | err]; cbn.
  - unfold emitted, GatherWeather.
    destruct (time_Parse layout (Timestamp status)); cbn;
      now rewrite ?app_nil_r.
  - now rewrite app_nil_r.
Qed.

(** What an outcome contributes: nothing for a fetch error or for a
    timestamp that does not parse, one metric otherwise. *)
Lemma emitted_cases (n : NOAAWeatherAPI) (o : Status + error) (m : telegraf.Metric) :
  m ∈ emitted n o <->
  exists status tm,
    o = inl status
    /\ time_Parse layout (Timestamp status) = inl tm
    /\ m = telegraf.mkMetric "noaa_weather" (weather_fields n status)
             weather_tags tm.
Proof.
  unfold emitted. destruct o as [status | err].
  - unfold GatherWeather.
    destruct (time_Parse layout (Timestamp status)) as [tm | e] eqn:Hparse; cbn.
    + rewrite list_elem_of_singleton. split.
      * intros ->. eauto.
      * intros (status' & tm' & [= <-] & Htm & ->). congruence.
    + split; [intros H; now apply elem_of_nil in H |].
      intros (status' & tm' & [= <-] & Htm & _). congruence.
  - split; [intros H; now apply elem_of_nil in H |].
    intros (? & ? & [=] & _).
Qed.

Lemma launch_appends (n : NOAAWeatherAPI) (stations : list string) :
  forall i0 os,
    fetches n i0 stations = Done os ->
    exists ts, launch n i0 stations = Done ts /\ Forall2 (appends n) ts os.
Proof.
  induction stations as [| station rest IH]; intros i0 os; cbn.
  - intros [= <-]. exists []. split; [reflexivity | constructor].
  - destruct (formatURL n observation_path station) as [addr |]; [| discriminate].
    destruct (gatherURL n i0 addr) as [o |] eqn:Hfetch; [| discriminate].
    destruct (fetches n (S i0) rest) as [os' |] eqn:Hrest; [| discriminate].
    intros [= <-]. destruct (IH _ _ Hrest) as (ts & Hlaunch & Hall).
    rewrite Hlaunch. eexists. split; [reflexivity |].
    constructor; [| exact Hall]. now apply goroutine_appends.
Qed.

Lemma joined_in_order (ts : list task) :
  forall acc, joined ts acc (run_in_order ts acc).
Proof.
  induction ts as [| t rest IH]; intros acc; cbn.
  - constructor.
  - destruct (t acc) as [acc1 |] eqn:Ht.
    + apply (joined_step [] t rest acc acc1); [exact Ht | apply IH].
    + now apply (joined_panic [] t rest acc).
Qed.

(** The schedule that computes is one of the cycle's runs. *)
Lemma Gather_in_order_runs (n : NOAAWeatherAPI) (acc : telegraf.Accumulator) :
  Gather n acc (Gather_in_order n acc).
Proof.
  unfold Gather_in_order.
  destruct (launch n 0 (StationID n)) as [ts |] eqn:Hlaunch.
  - pose proof (joined_in_order ts acc) as Hrun.
    destruct (run_in_order ts acc) as [acc' |].
    + now apply Gather_return with ts.
    + now apply Gather_crash_in_goroutine with ts.
  - now apply Gather_crash_in_loop.
Qed.

Lemma joined_appends (n : NOAAWeatherAPI) (ts : list task)
  (acc : telegraf.Accumulator) (r : outcome telegraf.Accumulator) :
  joined ts acc r ->
  forall os,
    Forall2 (appends n) ts os ->
    exists acc',
      r = Done acc'
      /\ Permutation (telegraf.Metrics acc')
           (telegraf.Metrics acc ++ flat_map (emitted n) os)
      /\ Permutation (telegraf.Errors acc')
           (telegraf.Errors acc ++ flat_map reported os).
Proof.
  induction 1 as [acc | before t after acc acc1 r Ht Hrest IH
                 | before t after acc Ht]; intros os Hall.
  - apply Forall2_nil_inv_l in Hall as ->. exists acc. cbn.
    rewrite !app_nil_r. auto.
  - apply Forall2_app_inv_l in Hall as (os1 & os' & Hbefore & Hall & ->).
    apply Forall2_cons_inv_l in Hall as (o & os2 & Ho & Hafter & ->).
    rewrite (Ho acc) in Ht. injection Ht as <-.
    destruct (IH (os1 ++ os2)%list) as (acc' & -> & Hm & He).
    { now apply Forall2_app. }
    exists acc'. split; [reflexivity |]. cbn in Hm, He.
    rewrite flat_map_app in Hm, He. rewrite !flat_map_app. cbn.
    split.
    + rewrite Hm. solve_Permutation.
    + rewrite He. solve_Permutation.
  - apply Forall2_app_inv_l in Hall as (os1 & os' & Hbefore & Hall & ->).
    apply Forall2_cons_inv_l in Hall as (o & os2 & Ho & Hafter & ->).
    rewrite (Ho acc) in Ht. discriminate.
Qed.

(** C5: when every station's fetch comes back, with a [Status] or with an
    error, a cycle can always complete, and however the goroutines are
    scheduled it returns no error; the errors reported are exactly the
    fetch errors, and the metrics emitted are exactly those of the
    stations whose fetch succeeded, so a failed station takes nothing
    away from the others. *)
Theorem Gather_returns_no_error :
  forall (n : NOAAWeatherAPI) (acc : telegraf.Accumulator)
         (os : list (Status + error)),
    fetches n 0 (StationID n) = Done os ->
    (exists acc', Gather n acc (Done (acc', None)))
    /\ forall r,
        Gather n acc r ->
        exists acc',
          r = Done (acc', None)
          /\ Permutation (telegraf.Metrics acc')
               (telegraf.Metrics acc ++ flat_map (emitted n) os)
          /\ Permutation (telegraf.Errors acc')
               (telegraf.Errors acc ++ flat_map reported os).
Proof.
  intros n acc os Hfetch.
  destruct (launch_appends n (StationID n) 0 os Hfetch) as (ts & Hlaunch & Hall).
  split.
  - destruct (joined_appends n ts acc _ (joined_in_order ts acc) os Hall)
      as (acc' & Hrun & _).
    exists acc'. apply Gather_return with ts; [exact Hlaunch |].
    rewrite <- Hrun. apply joined_in_order.
  - intros r Hr.
    destruct Hr as [Hcrash | ts' Hlaunch' Hrun | ts' acc' Hlaunch' Hrun].
    + congruence.
    + rewrite Hlaunch in Hlaunch'.
      injection Hlaunch' as <-.
      destruct (joined_appends n ts acc _ Hrun os Hall) as (? & ? & _).
      discriminate.
    + rewrite Hlaunch in Hlaunch'.
      injection Hlaunch' as <-.
      destruct (joined_appends n ts acc _ Hrun os Hall) as (acc'' & [= <-] & Hm & He).
      exists acc'. auto.
Qed.

(** After [Init], every fetch comes back as soon as the addresses the
    plugin formats are addresses [http.NewRequest] accepts. *)
Lemma fetches_after_Init (n0 n : NOAAWeatherAPI) :
  Init url_Parse n0 = (n, None) ->
  (forall station addr,
      station ∈ StationID n ->
      formatURL n observation_path station = Done addr ->
      exists u, url_Parse addr = inl u) ->
  exists os, fetches n 0 (StationID n) = Done os.
Proof.
  intros Hinit Hreq.
  destruct (Init_error_or_ready url_Parse n0 n Hinit)
    as (c & u & Hclient & Hbase & _).
  revert Hreq. generalize 0. generalize (StationID n) as stations.
  induction stations as [| station rest IH]; intros i0 Hreq; cbn.
  - eauto.
  - destruct (formatURL n observation_path station) as [addr |] eqn:Haddr.
    2: { unfold formatURL in Haddr. rewrite Hbase in Haddr. discriminate. }
    destruct (Hreq station addr) as (u' & Hu'); [set_solver | exact Haddr |].
    assert (exists o, gatherURL n i0 addr = Done o) as (o & Ho).
    { unfold gatherURL, http_NewRequest. rewrite Hu', Hclient.
      destruct (client_Do _ _ _); [| eauto].
      destruct (negb _); [eauto |].
      destruct (mime_ParseMediaType _); [| eauto].
      destruct (negb _); eauto. }
    rewrite Ho.
    destruct (IH (S i0)) as (os & Hos).
    { intros s a Hs. apply Hreq. set_solver. }
    rewrite Hos. eauto.
Qed.

(** Every metric a completed cycle adds was built by [GatherWeather]
    from a fetched observation whose timestamp parsed. *)
Lemma Gather_metrics_origin (n : NOAAWeatherAPI) (acc acc' : telegraf.Accumulator)
  (err : option error) (os : list (Status + error)) (m : telegraf.Metric) :
  fetches n 0 (StationID n) = Done os ->
  Gather n acc (Done (acc', err)) ->
  m ∈ telegraf.Metrics acc' ->
  m ∈ telegraf.Metrics acc
  \/ exists status tm,
      inl status ∈ os
      /\ time_Parse layout (Timestamp status) = inl tm
      /\ m = telegraf.mkMetric "noaa_weather" (weather_fields n status)
               weather_tags tm.
Proof.
  intros Hfetch Hrun Hm.
  destruct (launch_appends n (StationID n) 0 os Hfetch) as (ts & Hlaunch & Hall).
  inversion Hrun as [| | ts' acc'' Hlaunch' Hjoin]; subst.
  rewrite Hlaunch in Hlaunch'. injection Hlaunch' as <-.
  destruct (joined_appends n ts acc _ Hjoin os Hall) as (acc1 & [= <-] & Hperm & _).
  rewrite Hperm in Hm. apply elem_of_app in Hm as [Hm | Hm]; [now left | right].
  apply list_elem_of_In, in_flat_map in Hm as (o & Ho & Hm).
  apply list_elem_of_In, emitted_cases in Hm as (status & tm & -> & Htm & ->).
  exists status, tm. split; [now apply list_elem_of_In | auto].
Qed.

End GatherFacts.

(** Three stations, the second unknown to the remote end. *)
Lemma Gather_returns_no_error_witness :
  (exists acc',
      Gather Test.url_Parse Test.client_Do Test.mime_ParseMediaType
        Test.json_Decode Test.time_Parse
        (fst (Test.Init (Test.config ["KSUA"; "KXYZ"; "KSUA"] "metric")))
        telegraf.empty (Done (acc', None)))
  /\ forall r,
      Gather Test.url_Parse Test.client_Do Test.mime_ParseMediaType
        Test.json_Decode Test.time_Parse
        (fst (Test.Init (Test.config ["KSUA"; "KXYZ"; "KSUA"] "metric")))
        telegraf.empty r ->
      exists acc',
        r = Done (acc', None)
        /\ Permutation (telegraf.Metrics acc')
             (telegraf.Metrics telegraf.empty
                ++ flat_map
                     (emitted Test.time_Parse
                        (fst (Test.Init (Test.config ["KSUA"; "KXYZ"; "KSUA"] "metric"))))
                     [inl Test.sampleStatus;
                      inr "http://127.0.0.1:8080/stations/KXYZ/observations/latest?require_qc=false returned HTTP status 404 Not Found";
                      inl Test.sampleStatus])
        /\ Permutation (telegraf.Errors acc')
             (telegraf.Errors telegraf.empty
                ++ flat_map reported
                     [inl Test.sampleStatus;
                      inr "http://127.0.0.1:8080/stations/KXYZ/observations/latest?require_qc=false returned HTTP status 404 Not Found";
                      inl Test.sampleStatus]).
Proof.
  apply (Gather_returns_no_error Test.url_Parse Test.client_Do
           Test.mime_ParseMediaType Test.json_Decode Test.time_Parse
           (fst (Test.Init (Test.config ["KSUA"; "KXYZ"; "KSUA"] "metric")))
           telegraf.empty).
  vm_compute. reflexivity.
Defined.

(** ** Addresses: [formatURL] *)

Lemma append_empty_r (s : string) : s ++ "" = s.
Proof.
  induction s as [| c s IH]; [reflexivity |].
  change (String c (s ++ "") = String c s). now rewrite IH.
Qed.

(** Resolving a reference that has a query and no scheme, authority or
    opaque part keeps the reference's query and fragment. *)
Lemma ResolveReference_keeps_query (base ref : url.URL) :
  url.Scheme ref = "" -> url.Host ref = "" -> url.User ref = None ->
  url.Opaque ref = "" -> String.eqb (url.RawQuery ref) "" = false ->
  url.RawQuery (url.ResolveReference base ref) = url.RawQuery ref
  /\ url.Fragment (url.ResolveReference base ref) = url.Fragment ref.
Proof.
  intros Hs Hh Hu Ho Hq. unfold url.ResolveReference.
  rewrite Hs, Hh, Hu, Ho, Hq. cbn.
  rewrite andb_false_r.
  destruct (String.eqb (url.Path ref) "" && negb (String.eqb (url.Opaque base) ""));
    cbn; [auto |].
  unfold url.set_path_or_keep, url.setPath.
  destruct (url.unescape _ _) as [path |]; cbn; [| auto].
  match goal with
  | |- context [if ?b then Some _ else Some _] => destruct b
  end; cbn; auto.
Qed.

Lemma String_ends_with_query (u : url.URL) :
  String.eqb (url.RawQuery u) "" = false -> url.Fragment u = "" ->
  exists stem, url.String_ u = stem ++ "?" ++ url.RawQuery u.
Proof.
  intros Hq Hf. unfold url.String_. cbv zeta. rewrite Hq, Hf, orb_true_r.
  change (String.eqb "" "") with true. cbv iota.
  rewrite append_empty_r. eexists. reflexivity.
Qed.

(** Whatever the base URL, the path template and the station, the
    address ends in the query [?require_qc=false]. *)
Lemma formatURL_ends_with_require_qc (n : NOAAWeatherAPI) (base : url.URL)
  (path station : string) :
  baseParsedURL n = Some base ->
  exists stem, formatURL n path station = Done (stem ++ "?require_qc=false").
Proof.
  intros Hbase. unfold formatURL. rewrite Hbase.
  assert (url.Values_Encode {[ "require_qc" := ["false"] ]} = "require_qc=false")
    as -> by (vm_compute; reflexivity).
  set (relative := url.mkURL _ _ _ _ _ _ _ _ _ _ _).
  destruct (ResolveReference_keeps_query base relative) as [Hq Hf];
    [reflexivity .. |].
  destruct (String_ends_with_query (url.ResolveReference base relative))
    as (stem & Hstem).
  { now rewrite Hq. }
  { now rewrite Hf. }
  exists stem. now rewrite Hstem, Hq.
Qed.

(** [TestFormatURL]: after [Init] on the base URL [http://foo.com], which
    [url.Parse] splits into the scheme [http] and the host [foo.com], the
    address of station KSUA is the one the test expects. *)
Lemma formatURL_foo_com_KSUA (url_Parse : string -> url.URL + error)
  (n0 n : NOAAWeatherAPI) :
  BaseURL n0 = "http://foo.com" ->
  url_Parse "http://foo.com" = inl foo_com ->
  Init url_Parse n0 = (n, None) ->
  formatURL n "/stations/%s/observations/latest" "KSUA"
  = Done "http://foo.com/stations/KSUA/observations/latest?require_qc=false".
Proof.
  intros Hbase Hparse Hinit.
  destruct (Init_error_or_ready url_Parse n0 n Hinit)
    as (c & u & _ & Hu & Hparse' & _).
  rewrite Hbase, Hparse in Hparse'. injection Hparse' as <-.
  unfold formatURL. rewrite Hu. vm_compute. reflexivity.
Qed.

(** ** The tests, replayed

    What the model computes on the inputs of the test file: the fields,
    the tag and the time are the ones the tests expect. *)

Example replay_TestWeatherGeneratesImperial :
  match Test.Gather_in_order (fst (Test.Init (Test.config ["KSUA"] "imperial")))
          telegraf.empty with
  | Done (acc, err) =>
      err = None
      /\ telegraf.Errors acc = []
      /\ map (fun m => (telegraf.Fields m !! "temperature",
                        telegraf.Fields m !! "visibility",
                        telegraf.Fields m !! "wind_speed",
                        telegraf.Fields m !! "humidity",
                        telegraf.Tags m !! "station",
                        time.Unix (telegraf.Time m)))
             (telegraf.Metrics acc)
         = [(Some 69.8%float, Some 10%float, Some 13.871970167806092%float,
             Some 52.802638324228%float, Some "KSUA", 1636311000%Z)]
  | Panic => False
  end.
Proof. vm_compute. repeat split. Qed.

Example replay_TestWeatherGeneratesImperialMultiple :
  match Test.Gather_in_order
          (fst (Test.Init (Test.config ["KSUA"; "KSUA"] "imperial")))
          telegraf.empty with
  | Done (acc, err) =>
      err = None /\ length (telegraf.Metrics acc) = 2 /\ telegraf.Errors acc = []
  | Panic => False
  end.
Proof. vm_compute. repeat split. Qed.

Example replay_uninitialised_receiver :
  Test.Gather_in_order (Test.config ["KSUA"] "metric") telegraf.empty = Panic.
Proof. reflexivity. Qed.

(** * Further properties of the plugin *)

(** ** [createHTTPClient] and [Init] *)

(** X1: the client [createHTTPClient] builds never has a timeout under one
    second: a configured timeout of at least a second is kept, anything
    lower (negative included) becomes the five-second default, not one
    second; the receiver stores the same value and nothing else in it
    changes. *)
Theorem createHTTPClient_timeout_floor :
  forall n : NOAAWeatherAPI,
    (time.Second <= http.Timeout (snd (createHTTPClient n)))%Z
    /\ ResponseTimeout (fst (createHTTPClient n))
       = http.Timeout (snd (createHTTPClient n))
    /\ ((time.Second <= ResponseTimeout n)%Z ->
        http.Timeout (snd (createHTTPClient n)) = ResponseTimeout n)
    /\ ((ResponseTimeout n < time.Second)%Z ->
        http.Timeout (snd (createHTTPClient n)) = (5 * time.Second)%Z)
    /\ StationID (fst (createHTTPClient n)) = StationID n
    /\ BaseURL (fst (createHTTPClient n)) = BaseURL n
    /\ Units (fst (createHTTPClient n)) = Units n
    /\ UserAgent (fst (createHTTPClient n)) = UserAgent n
    /\ client (fst (createHTTPClient n)) = client n
    /\ baseParsedURL (fst (createHTTPClient n)) = baseParsedURL n.
Proof.
  intros n. unfold createHTTPClient, defaultResponseTimeout, time.Second. cbn.
  destruct (Z.ltb_spec (ResponseTimeout n) 1000000000); repeat split; lia.
Qed.

Lemma createHTTPClient_timeout_floor_witness :
  (time.Second <= http.Timeout (snd (createHTTPClient kelvin_config)))%Z
  /\ ResponseTimeout (fst (createHTTPClient kelvin_config))
     = http.Timeout (snd (createHTTPClient kelvin_config))
  /\ ((time.Second <= ResponseTimeout kelvin_config)%Z ->
      http.Timeout (snd (createHTTPClient kelvin_config))
      = ResponseTimeout kelvin_config)
  /\ ((ResponseTimeout kelvin_config < time.Second)%Z ->
      http.Timeout (snd (createHTTPClient kelvin_config)) = (5 * time.Second)%Z)
  /\ StationID (fst (createHTTPClient kelvin_config)) = StationID kelvin_config
  /\ BaseURL (fst (createHTTPClient kelvin_config)) = BaseURL kelvin_config
  /\ Units (fst (createHTTPClient kelvin_config)) = Units kelvin_config
  /\ UserAgent (fst (createHTTPClient kelvin_config)) = UserAgent kelvin_config
  /\ client (fst (createHTTPClient kelvin_config)) = client kelvin_config
  /\ baseParsedURL (fst (createHTTPClient kelvin_config))
     = baseParsedURL kelvin_config.
Proof. exact (createHTTPClient_timeout_floor kelvin_config). Defined.

Section InitMore.

Variable url_Parse : string -> url.URL + error.

Lemma accepted_units_spec (units : string) :
  units ∈ accepted_units <->
  String.eqb units "imperial" || String.eqb units "metric" = true
  \/ String.eqb units "" = true.
Proof.
  unfold accepted_units. rewrite !elem_of_cons, elem_of_nil, orb_true_iff.
  rewrite !String.eqb_eq. tauto.
Qed.

(** X2: [Init] returns no error exactly when the base URL parses and the
    unit system is [imperial], [metric] or empty. *)
Theorem Init_succeeds_iff :
  forall n : NOAAWeatherAPI,
    snd (Init url_Parse n) = None <->
    (exists u, url_Parse (BaseURL n) = inl u) /\ Units n ∈ accepted_units.
Proof.
  intros n. rewrite accepted_units_spec. unfold Init.
  destruct (url_Parse (BaseURL n)) as [u | err]; cbn.
  - destruct (String.eqb (Units n) "imperial" || String.eqb (Units n) "metric");
      cbn; [split; eauto |].
    destruct (String.eqb (Units n) ""); cbn.
    + split; eauto.
    + split; [discriminate |]. intros (_ & [H | H]); discriminate.
  - split; [discriminate |]. intros ((u & Hu) & _). discriminate.
Qed.

(** X3: with a base URL that parses and a unit system outside the three
    accepted strings, [Init] fails with [unknown units: ] followed by the
    offending string; the receiver keeps that string, and by then it
    already holds the parsed URL and a client. *)
Theorem Init_unknown_units :
  forall (n : NOAAWeatherAPI) (u : url.URL),
    url_Parse (BaseURL n) = inl u ->
    Units n ∉ accepted_units ->
    snd (Init url_Parse n) = Some ("unknown units: " ++ Units n)
    /\ Units (fst (Init url_Parse n)) = Units n
    /\ baseParsedURL (fst (Init url_Parse n)) = Some u
    /\ client (fst (Init url_Parse n)) = Some (snd (createHTTPClient n)).
Proof.
  intros n u Hparse Hunits. rewrite accepted_units_spec in Hunits.
  unfold Init. rewrite Hparse. cbn.
  destruct (String.eqb (Units n) "imperial" || String.eqb (Units n) "metric");
    [exfalso; auto |].
  destruct (String.eqb (Units n) ""); [exfalso; auto |]. cbn. auto.
Qed.

(** X4: when the base URL does not parse, [Init] returns the parser's
    error as it is and stops there: the URL pointer is nil, and neither
    the client, the timeout nor the unit system has been touched, so an
    empty unit system stays empty. *)
Theorem Init_parse_error :
  forall (n : NOAAWeatherAPI) (err : error),
    url_Parse (BaseURL n) = inr err ->
    snd (Init url_Parse n) = Some err
    /\ baseParsedURL (fst (Init url_Parse n)) = None
    /\ client (fst (Init url_Parse n)) = client n
    /\ ResponseTimeout (fst (Init url_Parse n)) = ResponseTimeout n
    /\ Units (fst (Init url_Parse n)) = Units n.
Proof.
  intros n err Hparse. unfold Init. rewrite Hparse. cbn. auto.
Qed.

(** X5: after an [Init] that returned no error, the receiver is ready:
    the unit system is [imperial] or [metric] (the configured one unless
    it was empty), the parsed base URL is stored, the client's timeout
    is the stored one and at least a second, and the stations, base URL
    and user agent are the configured ones. *)
Theorem Init_ready :
  forall n n' : NOAAWeatherAPI,
    Init url_Parse n = (n', None) ->
    (Units n' = "imperial" \/ Units n' = "metric")
    /\ (Units n <> "" -> Units n' = Units n)
    /\ (exists u, baseParsedURL n' = Some u /\ url_Parse (BaseURL n) = inl u)
    /\ client n' = Some (http.mkClient (ResponseTimeout n'))
    /\ (time.Second <= ResponseTimeout n')%Z
    /\ StationID n' = StationID n
    /\ BaseURL n' = BaseURL n
    /\ UserAgent n' = UserAgent n.
Proof.
  intros n n'. unfold Init.
  destruct (url_Parse (BaseURL n)) as [u | err] eqn:Hparse; [| discriminate].
  pose proof (createHTTPClient_timeout_floor n) as (Hfloor & Hsame & _).
  revert Hfloor Hsame. unfold createHTTPClient. cbn. intros Hfloor Hsame.
  destruct (String.eqb (Units n) "imperial") eqn:Himp; cbn.
  { apply String.eqb_eq in Himp. intros [= <-]. cbn. eauto 12. }
  destruct (String.eqb (Units n) "metric") eqn:Hmet; cbn.
  { apply String.eqb_eq in Hmet. intros [= <-]. cbn. eauto 12. }
  destruct (String.eqb (Units n) "") eqn:Hempty; [| discriminate].
  apply String.eqb_eq in Hempty. intros [= <-]. cbn.
  repeat split; eauto. congruence.
Qed.

(** X6: [Init] is idempotent: run again on a receiver it has accepted, it
    accepts it again and changes nothing. *)
Theorem Init_idempotent :
  forall n n' : NOAAWeatherAPI,
    Init url_Parse n = (n', None) ->
    Init url_Parse n' = (n', None).
Proof.
  intros n n' Hinit.
  destruct (Init_ready n n' Hinit)
    as (Hunits & _ & (u & Hu & Hparse) & Hclient & Hfloor & _ & Hbase & _).
  destruct n' as [st base tmo units agent cl bu]. cbn in *. subst cl bu.
  rewrite <- Hbase in Hparse.
  unfold Init. cbn. rewrite Hparse. unfold createHTTPClient. cbn.
  apply Z.ltb_ge in Hfloor. rewrite Hfloor.
  destruct Hunits as [-> | ->]; reflexivity.
Qed.

End InitMore.

Lemma Init_succeeds_iff_witness :
  snd (Test.Init foo_com_config) = None <->
  (exists u, Test.url_Parse (BaseURL foo_com_config) = inl u)
  /\ Units foo_com_config ∈ accepted_units.
Proof. exact (Init_succeeds_iff Test.url_Parse foo_com_config). Defined.

Lemma Init_unknown_units_witness :
  snd (Test.Init kelvin_config) = Some ("unknown units: " ++ Units kelvin_config)
  /\ Units (fst (Test.Init kelvin_config)) = Units kelvin_config
  /\ baseParsedURL (fst (Test.Init kelvin_config)) = Some foo_com
  /\ client (fst (Test.Init kelvin_config))
     = Some (snd (createHTTPClient kelvin_config)).
Proof.
  apply (Init_unknown_units Test.url_Parse kelvin_config foo_com);
    [reflexivity |].
  unfold accepted_units, kelvin_config. cbn. intros H.
  repeat (apply elem_of_cons in H as [H | H]; [discriminate H |]).
  now apply elem_of_nil in H.
Defined.

Lemma Init_parse_error_witness :
  snd (Test.Init (mkNOAAWeatherAPI ["KSUA"] "http://[::1" 0 "" "" None None))
  = Some "parse: unsupported by the stand-in"
  /\ baseParsedURL
       (fst (Test.Init (mkNOAAWeatherAPI ["KSUA"] "http://[::1" 0 "" "" None None)))
     = None
  /\ client
       (fst (Test.Init (mkNOAAWeatherAPI ["KSUA"] "http://[::1" 0 "" "" None None)))
     = None
  /\ ResponseTimeout
       (fst (Test.Init (mkNOAAWeatherAPI ["KSUA"] "http://[::1" 0 "" "" None None)))
     = 0%Z
  /\ Units
       (fst (Test.Init (mkNOAAWeatherAPI ["KSUA"] "http://[::1" 0 "" "" None None)))
     = "".
Proof.
  apply (Init_parse_error Test.url_Parse
           (mkNOAAWeatherAPI ["KSUA"] "http://[::1" 0 "" "" None None)
           "parse: unsupported by the stand-in").
  reflexivity.
Defined.

Lemma Init_ready_witness :
  (Units (fst (Test.Init foo_com_config)) = "imperial"
   \/ Units (fst (Test.Init foo_com_config)) = "metric")
  /\ (Units foo_com_config <> "" ->
      Units (fst (Test.Init foo_com_config)) = Units foo_com_config)
  /\ (exists u,
         baseParsedURL (fst (Test.Init foo_com_config)) = Some u
         /\ Test.url_Parse (BaseURL foo_com_config) = inl u)
  /\ client (fst (Test.Init foo_com_config))
     = Some (http.mkClient (ResponseTimeout (fst (Test.Init foo_com_config))))
  /\ (time.Second <= ResponseTimeout (fst (Test.Init foo_com_config)))%Z
  /\ StationID (fst (Test.Init foo_com_config)) = StationID foo_com_config
  /\ BaseURL (fst (Test.Init foo_com_config)) = BaseURL foo_com_config
  /\ UserAgent (fst (Test.Init foo_com_config)) = UserAgent foo_com_config.
Proof.
  apply (Init_ready Test.url_Parse foo_com_config (fst (Test.Init foo_com_config))).
  reflexivity.
Defined.

Lemma Init_idempotent_witness :
  Test.Init (fst (Test.Init foo_com_config)) = (fst (Test.Init foo_com_config), None).
Proof.
  apply (Init_idempotent Test.url_Parse foo_com_config). reflexivity.
Defined.

(** ** One fetch: [gatherURL] *)

(** The request of a fetch is a GET for the parsed address, an empty
    port stripped from its host, whose [Accept] header is
    [application/ld+json] and whose [User-Agent] header is the configured
    one, each with that single value, and it has no other header. *)
Lemma observation_request_headers :
  forall (n : NOAAWeatherAPI) (u : url.URL),
    http.Method (observation_request n u) = "GET"
    /\ http.URL (observation_request n u)
       = http.with_Host u (http.removeEmptyPort (url.Host u))
    /\ http.ReqHeader (observation_request n u) !! "Accept"
       = Some ["application/ld+json"]
    /\ http.ReqHeader (observation_request n u) !! "User-Agent"
       = Some [UserAgent n]
    /\ http.Header_Get (http.ReqHeader (observation_request n u)) "User-Agent"
       = UserAgent n
    /\ dom (http.ReqHeader (observation_request n u))
       = ({[ "Accept"; "User-Agent" ]} : gset string).
Proof.
  intros n u. unfold observation_request, http.Header_Add, http.Header_Get. cbn.
  rewrite lookup_empty. cbn.
  rewrite (lookup_insert_ne _ "Accept" "User-Agent") by discriminate.
  rewrite lookup_empty. cbn.
  rewrite lookup_insert_eq.
  rewrite (lookup_insert_ne _ "User-Agent" "Accept") by discriminate.
  rewrite lookup_insert_eq.
  repeat split.
Qed.

Section GatherURLMore.

Variable url_Parse : string -> url.URL + error.
Variable client_Do : nat -> http.Client -> http.Request -> http.Response + error.
Variable mime_ParseMediaType : string -> string + error.
Variable json_Decode : string -> Status + error.

Local Abbreviation gatherURL :=
  (gatherURL url_Parse client_Do mime_ParseMediaType json_Decode).

Lemma gatherURL_unfold (n : NOAAWeatherAPI) (i : nat) (addr : string) :
  gatherURL n i addr
  = match url_Parse addr with
    | inr _ => Panic
    | inl u =>
        match client n with
        | None => Panic
        | Some c =>
            match client_Do i c (observation_request n u) with
            | inr err =>
                Done (inr ("error making HTTP request to " ++ addr ++ ": " ++ err))
            | inl resp =>
                if (http.StatusCode resp =? 200)%Z then
                  match mime_ParseMediaType
                          (http.Header_Get (http.Header resp) "Content-Type") with
                  | inr err => Done (inr err)
                  | inl mediaType =>
                      if String.eqb mediaType "application/ld+json"
                      then Done (gatherWeatherURL json_Decode (http.Body resp))
                      else Done (inr (addr ++ " returned unexpected content type "
                                        ++ mediaType))
                  end
                else Done (inr (addr ++ " returned HTTP status " ++ http.Status resp))
            end
        end
    end.
Proof.
  unfold gatherURL, http_NewRequest, observation_request.
  destruct (url_Parse addr) as [u | e]; [| reflexivity]. cbn.
  destruct (client n) as [c |]; [| reflexivity].
  destruct (client_Do _ _ _) as [resp | e]; [| reflexivity].
  unfold http.StatusOK. destruct (http.StatusCode resp =? 200)%Z; [| reflexivity].
  cbn. destruct (mime_ParseMediaType _) as [mt | e]; [| reflexivity].
  destruct (String.eqb mt "application/ld+json"); reflexivity.
Qed.

(** X7: a fetch yields an observation exactly when the address parses,
    the client is set, the reply has status 200, its [Content-Type]
    parses to the media type [application/ld+json], and its body decodes
    to that observation. *)
Theorem gatherURL_succeeds_iff :
  forall (n : NOAAWeatherAPI) (i : nat) (addr : string) (status : Status),
    gatherURL n i addr = Done (inl status) <->
    exists u c resp,
      url_Parse addr = inl u
      /\ client n = Some c
      /\ client_Do i c (observation_request n u) = inl resp
      /\ http.StatusCode resp = 200%Z
      /\ mime_ParseMediaType (http.Header_Get (http.Header resp) "Content-Type")
         = inl "application/ld+json"
      /\ json_Decode (http.Body resp) = inl status.
Proof.
  intros n i addr status. rewrite gatherURL_unfold. split.
  - destruct (url_Parse addr) as [u | e]; [| discriminate].
    destruct (client n) as [c |]; [| discriminate].
    destruct (client_Do _ _ _) as [resp | e] eqn:Hdo; [| discriminate].
    destruct (Z.eqb_spec (http.StatusCode resp) 200) as [Hcode | _]; [| discriminate].
    destruct (mime_ParseMediaType _) as [mt | e] eqn:Hmime; [| discriminate].
    destruct (String.eqb_spec mt "application/ld+json") as [-> | _]; [| discriminate].
    unfold gatherWeatherURL.
    destruct (json_Decode (http.Body resp)) as [st | e] eqn:Hdec; [| discriminate].
    intros [= <-]. exists u, c, resp. repeat split; auto.
  - intros (u & c & resp & -> & -> & -> & -> & -> & Hdec). cbn.
    unfold gatherWeatherURL. now rewrite Hdec.
Qed.

(** X8: a fetch that returns an error returns one of five: the
    transport's error behind [error making HTTP request to ADDR: ], the
    status text of a reply that is not 200 behind
    [ADDR returned HTTP status ], the media-type parser's error as it
    is, an unexpected media type behind
    [ADDR returned unexpected content type ], or the decoder's error
    behind [error while decoding JSON response: ]. *)
Theorem gatherURL_error_causes :
  forall (n : NOAAWeatherAPI) (i : nat) (addr : string) (e : error),
    gatherURL n i addr = Done (inr e) ->
    exists u c,
      url_Parse addr = inl u /\ client n = Some c
      /\ ((exists err,
              client_Do i c (observation_request n u) = inr err
              /\ e = "error making HTTP request to " ++ addr ++ ": " ++ err)
          \/ exists resp,
              client_Do i c (observation_request n u) = inl resp
              /\ ((http.StatusCode resp <> 200%Z
                   /\ e = addr ++ " returned HTTP status " ++ http.Status resp)
                  \/ (http.StatusCode resp = 200%Z
                      /\ ((mime_ParseMediaType
                             (http.Header_Get (http.Header resp) "Content-Type")
                           = inr e)
                          \/ (exists mediaType,
                                 mime_ParseMediaType
                                   (http.Header_Get (http.Header resp) "Content-Type")
                                 = inl mediaType
                                 /\ mediaType <> "application/ld+json"
                                 /\ e = addr ++ " returned unexpected content type "
                                          ++ mediaType)
                          \/ (exists err,
                                 mime_ParseMediaType
                                   (http.Header_Get (http.Header resp) "Content-Type")
                                 = inl "application/ld+json"
                                 /\ json_Decode (http.Body resp) = inr err
                                 /\ e = "error while decoding JSON response: "
                                          ++ err))))).
Proof.
  intros n i addr e. rewrite gatherURL_unfold.
  destruct (url_Parse addr) as [u | e0]; [| discriminate].
  destruct (client n) as [c |]; [| discriminate].
  intros H. exists u, c. split; [reflexivity |]. split; [reflexivity |].
  destruct (client_Do _ _ _) as [resp | err] eqn:Hdo.
  2: { injection H as <-. left. eauto. }
  right. exists resp. split; [reflexivity |].
  destruct (Z.eqb_spec (http.StatusCode resp) 200) as [Hcode | Hcode].
  2: { injection H as <-. left. auto. }
  right. split; [exact Hcode |].
  destruct (mime_ParseMediaType _) as [mt | err] eqn:Hmime.
  2: { injection H as <-. left. reflexivity. }
  destruct (String.eqb_spec mt "application/ld+json") as [-> | Hmt].
  2: { injection H as <-. right. left. eauto. }
  unfold gatherWeatherURL in H.
  destruct (json_Decode (http.Body resp)) as [st | err] eqn:Hdec; [discriminate |].
  injection H as <-. right. right. eauto.
Qed.

(** X9: a fetch panics exactly when [url.Parse] refuses the address (the
    error of [http.NewRequest] is dropped and the nil request is used)
    or the receiver has no client; no reply of the remote end makes it
    panic. *)
Theorem gatherURL_panics_iff :
  forall (n : NOAAWeatherAPI) (i : nat) (addr : string),
    gatherURL n i addr = Panic <->
    (exists err, url_Parse addr = inr err) \/ client n = None.
Proof.
  intros n i addr. rewrite gatherURL_unfold.
  destruct (url_Parse addr) as [u | e0].
  2: { split; eauto. }
  destruct (client n) as [c |].
  2: { split; auto. }
  split.
  - destruct (client_Do _ _ _) as [resp | err]; [| discriminate].
    destruct (http.StatusCode resp =? 200)%Z; [| discriminate].
    destruct (mime_ParseMediaType _) as [mt | err]; [| discriminate].
    destruct (String.eqb mt "application/ld+json"); discriminate.
  - intros [[err [=]] | [=]].
Qed.

End GatherURLMore.

Lemma gatherURL_succeeds_iff_witness :
  gatherURL Test.url_Parse Test.client_Do Test.mime_ParseMediaType Test.json_Decode
    (fst (Test.Init (Test.config ["KSUA"] "metric"))) 0
    "http://127.0.0.1:8080/stations/KSUA/observations/latest?require_qc=false"
  = Done (inl Test.sampleStatus).
Proof.
  apply (proj2 (gatherURL_succeeds_iff Test.url_Parse Test.client_Do
                  Test.mime_ParseMediaType Test.json_Decode
                  (fst (Test.Init (Test.config ["KSUA"] "metric"))) 0
                  "http://127.0.0.1:8080/stations/KSUA/observations/latest?require_qc=false"
                  Test.sampleStatus)).
  eexists _, _, _. repeat split; vm_compute; reflexivity.
Defined.

Lemma gatherURL_error_causes_witness :
  exists u c,
    Test.url_Parse
      "http://127.0.0.1:8080/stations/KXYZ/observations/latest?require_qc=false"
    = inl u
    /\ client (fst (Test.Init (Test.config ["KXYZ"] "metric"))) = Some c
    /\ ((exists err,
            Test.client_Do 0 c
              (observation_request (fst (Test.Init (Test.config ["KXYZ"] "metric"))) u)
            = inr err
            /\ "http://127.0.0.1:8080/stations/KXYZ/observations/latest?require_qc=false returned HTTP status 404 Not Found"
               = "error making HTTP request to "
                   ++ "http://127.0.0.1:8080/stations/KXYZ/observations/latest?require_qc=false"
                   ++ ": " ++ err)
        \/ exists resp,
            Test.client_Do 0 c
              (observation_request (fst (Test.Init (Test.config ["KXYZ"] "metric"))) u)
            = inl resp
            /\ ((http.StatusCode resp <> 200%Z
                 /\ "http://127.0.0.1:8080/stations/KXYZ/observations/latest?require_qc=false returned HTTP status 404 Not Found"
                    = "http://127.0.0.1:8080/stations/KXYZ/observations/latest?require_qc=false"
                        ++ " returned HTTP status " ++ http.Status resp)
                \/ (http.StatusCode resp = 200%Z
                    /\ ((Test.mime_ParseMediaType
                           (http.Header_Get (http.Header resp) "Content-Type")
                         = inr "http://127.0.0.1:8080/stations/KXYZ/observations/latest?require_qc=false returned HTTP status 404 Not Found")
                        \/ (exists mediaType,
                               Test.mime_ParseMediaType
                                 (http.Header_Get (http.Header resp) "Content-Type")
                               = inl mediaType
                               /\ mediaType <> "application/ld+json"
                               /\ "http://127.0.0.1:8080/stations/KXYZ/observations/latest?require_qc=false returned HTTP status 404 Not Found"
                                  = "http://127.0.0.1:8080/stations/KXYZ/observations/latest?require_qc=false"
                                      ++ " returned unexpected content type "
                                      ++ mediaType)
                        \/ (exists err,
                               Test.mime_ParseMediaType
                                 (http.Header_Get (http.Header resp) "Content-Type")
                               = inl "application/ld+json"
                               /\ Test.json_Decode (http.Body resp) = inr err
                               /\ "http://127.0.0.1:8080/stations/KXYZ/observations/latest?require_qc=false returned HTTP status 404 Not Found"
                                  = "error while decoding JSON response: "
                                      ++ err))))).
Proof.
  apply (gatherURL_error_causes Test.url_Parse Test.client_Do
           Test.mime_ParseMediaType Test.json_Decode
           (fst (Test.Init (Test.config ["KXYZ"] "metric"))) 0
           "http://127.0.0.1:8080/stations/KXYZ/observations/latest?require_qc=false"
           "http://127.0.0.1:8080/stations/KXYZ/observations/latest?require_qc=false returned HTTP status 404 Not Found").
  vm_compute. reflexivity.
Defined.

Lemma gatherURL_panics_iff_witness :
  gatherURL Test.url_Parse Test.client_Do Test.mime_ParseMediaType Test.json_Decode
    (Test.config ["KSUA"] "metric") 0
    "http://127.0.0.1:8080/stations/KSUA/observations/latest?require_qc=false"
  = Panic.
Proof.
  apply (proj2 (gatherURL_panics_iff Test.url_Parse Test.client_Do
                  Test.mime_ParseMediaType Test.json_Decode
                  (Test.config ["KSUA"] "metric") 0
                  "http://127.0.0.1:8080/stations/KSUA/observations/latest?require_qc=false")).
  right. reflexivity.
Defined.

(** ** Cycles: [Gather] *)

Section GatherMore.

Variable url_Parse : string -> url.URL + error.
Variable client_Do : nat -> http.Client -> http.Request -> http.Response + error.
Variable mime_ParseMediaType : string -> string + error.
Variable json_Decode : string -> Status + error.
Variable time_Parse : string -> string -> time.Time + error.

Local Abbreviation launch :=
  (launch url_Parse client_Do mime_ParseMediaType json_Decode time_Parse).
Local Abbreviation fetches :=
  (fetches url_Parse client_Do mime_ParseMediaType json_Decode).
Local Abbreviation Gather :=
  (Gather url_Parse client_Do mime_ParseMediaType json_Decode time_Parse).
Local Abbreviation emitted := (emitted time_Parse).
Local Abbreviation appends := (appends time_Parse).
Local Abbreviation undated := (undated time_Parse).

Lemma joined_nil_inv (acc : telegraf.Accumulator)
  (r : outcome telegraf.Accumulator) :
  joined [] acc r -> r = Done acc.
Proof.
  intros H. inversion H as [| before t after ? ? ? ? ? Heq | before t after ? ? Heq].
  - reflexivity.
  - now destruct before.
  - now destruct before.
Qed.

(** X12: with no station configured a cycle does nothing: it returns no
    error and leaves the accumulator as it found it, and it cannot crash,
    not even on a receiver that was never initialised. *)
Theorem Gather_no_stations :
  forall (n : NOAAWeatherAPI) (acc : telegraf.Accumulator)
         (r : outcome (telegraf.Accumulator * option error)),
    StationID n = [] ->
    (Gather n acc r <-> r = Done (acc, None)).
Proof.
  intros n acc r Hnone. split.
  - intros Hrun. destruct Hrun as [Hl | ts Hl Hj | ts acc' Hl Hj];
      rewrite Hnone in Hl; cbn in Hl; try discriminate.
    + injection Hl as <-. apply joined_nil_inv in Hj. discriminate.
    + injection Hl as <-. apply joined_nil_inv in Hj. now injection Hj as <-.
  - intros ->. apply Gather_return with []; [now rewrite Hnone | constructor].
Qed.

(** X11: on a receiver whose base URL was never parsed (no [Init], or an
    [Init] that failed on the URL) a cycle with at least one station
    never returns: formatting the first address dereferences the nil
    URL. *)
Theorem Gather_without_base_URL_crashes :
  forall (n : NOAAWeatherAPI) (acc : telegraf.Accumulator)
         (r : outcome (telegraf.Accumulator * option error)),
    baseParsedURL n = None ->
    StationID n <> [] ->
    (Gather n acc r <-> r = Panic).
Proof.
  intros n acc r Hnil Hsome.
  assert (launch n 0 (StationID n) = Panic) as Hl.
  { destruct (StationID n) as [| station rest]; [congruence |].
    cbn. unfold formatURL. now rewrite Hnil. }
  split.
  - intros Hrun. destruct Hrun as [_ | ts Hl' _ | ts acc' Hl' _];
      [reflexivity | reflexivity | congruence].
  - intros ->. now apply Gather_crash_in_loop.
Qed.

(** X13: after an [Init] that returned no error, and as long as
    [url.Parse] accepts the addresses the plugin formats, a cycle cannot
    crash: it can complete, and every schedule of the goroutines returns
    no error. *)
Theorem Gather_after_Init_returns :
  forall (n0 n : NOAAWeatherAPI) (acc : telegraf.Accumulator),
    Init url_Parse n0 = (n, None) ->
    (forall station addr,
        station ∈ StationID n ->
        formatURL n observation_path station = Done addr ->
        exists u, url_Parse addr = inl u) ->
    (exists acc', Gather n acc (Done (acc', None)))
    /\ forall r, Gather n acc r -> exists acc', r = Done (acc', None).
Proof.
  intros n0 n acc Hinit Hparse.
  destruct (fetches_after_Init url_Parse client_Do mime_ParseMediaType
              json_Decode time_Parse n0 n Hinit Hparse) as (os & Hfetch).
  destruct (launch_appends url_Parse client_Do mime_ParseMediaType json_Decode
              time_Parse n (StationID n) 0 os Hfetch) as (ts & Hl & Hall).
  split.
  - destruct (joined_appends time_Parse n ts acc _ (joined_in_order ts acc) os Hall)
      as (acc' & Hrun & _).
    exists acc'. apply Gather_return with ts; [exact Hl |].
    rewrite <- Hrun. apply joined_in_order.
  - intros r Hrun. destruct Hrun as [Hl' | ts' Hl' Hj | ts' acc' Hl' Hj].
    + congruence.
    + rewrite Hl in Hl'. injection Hl' as <-.
      destruct (joined_appends time_Parse n ts acc _ Hj os Hall) as (? & [=] & _).
    + eauto.
Qed.

Lemma fetches_length (n : NOAAWeatherAPI) (stations : list string) :
  forall i0 os, fetches n i0 stations = Done os -> length os = length stations.
Proof.
  induction stations as [| station rest IH]; intros i0 os; cbn.
  - now intros [= <-].
  - destruct (formatURL n observation_path station) as [addr |]; [| discriminate].
    destruct (gatherURL _ _ _ _ n i0 addr) as [o |]; [| discriminate].
    destruct (fetches n (S i0) rest) as [os' |] eqn:Hrest; [| discriminate].
    intros [= <-]. cbn. f_equal. now apply IH with (S i0).
Qed.

Lemma one_call_per_outcome (n : NOAAWeatherAPI) (os : list (Status + error)) :
  length (flat_map (emitted n) os) + length (flat_map reported os)
    + length (filter (fun o => undated o = true) os)
  = length os.
Proof.
  induction os as [| o os IH]; [reflexivity |].
  cbn [flat_map]. rewrite !length_app, filter_cons.
  assert (length (emitted n o) + length (reported o)
            + (if undated o then 1 else 0) = 1) as Hone.
  { destruct o as [status | err]; cbn; [| reflexivity].
    unfold GatherWeather.
    destruct (time_Parse layout (Timestamp status)); reflexivity. }
  destruct (decide (undated o = true)) as [Hu | Hu].
  - rewrite Hu in Hone. cbn [length]. lia.
  - apply not_true_is_false in Hu. rewrite Hu in Hone. cbn [length]. lia.
Qed.

(** X14: a completed cycle makes at most one accumulator call per
    station: the metrics added, the errors added and the observations
    dropped for a timestamp that did not parse add up to the number of
    configured stations. *)
Theorem Gather_one_call_per_station :
  forall (n : NOAAWeatherAPI) (acc acc' : telegraf.Accumulator)
         (err : option error) (os : list (Status + error)),
    fetches n 0 (StationID n) = Done os ->
    Gather n acc (Done (acc', err)) ->
    length (telegraf.Metrics acc') + length (telegraf.Errors acc')
      + length (filter (fun o => undated o = true) os)
    = length (telegraf.Metrics acc) + length (telegraf.Errors acc)
      + length (StationID n).
Proof.
  intros n acc acc' err os Hfetch Hrun.
  destruct (launch_appends url_Parse client_Do mime_ParseMediaType json_Decode
              time_Parse n (StationID n) 0 os Hfetch) as (ts & Hl & Hall).
  inversion Hrun as [| | ts' acc'' Hl' Hj]; subst.
  rewrite Hl in Hl'. injection Hl' as <-.
  destruct (joined_appends time_Parse n ts acc _ Hj os Hall)
    as (acc1 & [= <-] & Hm & He).
  apply Permutation_length in Hm, He. rewrite length_app in Hm, He.
  pose proof (one_call_per_outcome n os) as Hone.
  rewrite (fetches_length n _ _ _ Hfetch) in Hone. lia.
Qed.

(** X15: what a completed cycle leaves in the accumulator, counted with
    multiplicity and up to the order in which the goroutines finished:
    the metrics already there and, for each fetched observation whose
    timestamp parsed, one metric named [noaa_weather] with that
    observation's fields, the tag [station = KSUA] and the parsed time;
    the errors already there and one error per failed fetch.  Two
    stations with the same observation give two metrics. *)
Theorem Gather_accumulator_content :
  forall (n : NOAAWeatherAPI) (acc acc' : telegraf.Accumulator)
         (err : option error) (os : list (Status + error)),
    fetches n 0 (StationID n) = Done os ->
    Gather n acc (Done (acc', err)) ->
    Permutation (telegraf.Metrics acc')
      (telegraf.Metrics acc
         ++ flat_map
              (fun o : Status + error =>
                 match o with
                 | inl status =>
                     match time_Parse layout (Timestamp status) with
                     | inl tm =>
                         [telegraf.mkMetric "noaa_weather"
                            (weather_fields n status)
                            {[ "station" := "KSUA" ]} tm]
                     | inr _ => []
                     end
                 | inr _ => []
                 end)
              os)
    /\ Permutation (telegraf.Errors acc')
         (telegraf.Errors acc
            ++ flat_map
                 (fun o : Status + error =>
                    match o with
                    | inl _ => []
                    | inr e => [e]
                    end)
                 os)
    /\ err = None.
Proof.
  intros n acc acc' err os Hfetch Hrun.
  destruct (launch_appends url_Parse client_Do mime_ParseMediaType json_Decode
              time_Parse n (StationID n) 0 os Hfetch) as (ts & Hl & Hall).
  inversion Hrun as [| | ts' acc'' Hl' Hj]; subst.
  rewrite Hl in Hl'. injection Hl' as <-.
  destruct (joined_appends time_Parse n ts acc _ Hj os Hall)
    as (acc1 & [= <-] & Hm & He).
  split; [| split; [exact He | reflexivity]].
  rewrite Hm. apply Permutation_app_head.
  erewrite flat_map_ext; [reflexivity |].
  intros [status | e]; [| reflexivity].
  unfold emitted, GatherWeather.
  destruct (time_Parse layout (Timestamp status)); reflexivity.
Qed.

End GatherMore.

Lemma Gather_no_stations_witness :
  Gather Test.url_Parse Test.client_Do Test.mime_ParseMediaType Test.json_Decode
    Test.time_Parse newNOAAWeatherAPI telegraf.empty (Done (telegraf.empty, None)).
Proof.
  apply (proj2 (Gather_no_stations Test.url_Parse Test.client_Do
                  Test.mime_ParseMediaType Test.json_Decode Test.time_Parse
                  newNOAAWeatherAPI telegraf.empty (Done (telegraf.empty, None))
                  eq_refl)).
  reflexivity.
Defined.

Lemma Gather_without_base_URL_crashes_witness :
  Gather Test.url_Parse Test.client_Do Test.mime_ParseMediaType Test.json_Decode
    Test.time_Parse (Test.config ["KSUA"] "metric") telegraf.empty Panic.
Proof.
  apply (proj2 (Gather_without_base_URL_crashes Test.url_Parse Test.client_Do
                  Test.mime_ParseMediaType Test.json_Decode Test.time_Parse
                  (Test.config ["KSUA"] "metric") telegraf.empty Panic
                  eq_refl ltac:(discriminate))).
  reflexivity.
Defined.

Lemma Gather_after_Init_returns_witness :
  (exists acc',
      Gather Test.url_Parse Test.client_Do Test.mime_ParseMediaType
        Test.json_Decode Test.time_Parse
        (fst (Test.Init (Test.config ["KSUA"; "KXYZ"] "metric")))
        telegraf.empty (Done (acc', None)))
  /\ forall r,
      Gather Test.url_Parse Test.client_Do Test.mime_ParseMediaType
        Test.json_Decode Test.time_Parse
        (fst (Test.Init (Test.config ["KSUA"; "KXYZ"] "metric")))
        telegraf.empty r ->
      exists acc', r = Done (acc', None).
Proof.
  apply (Gather_after_Init_returns Test.url_Parse Test.client_Do
           Test.mime_ParseMediaType Test.json_Decode Test.time_Parse
           (Test.config ["KSUA"; "KXYZ"] "metric")
           (fst (Test.Init (Test.config ["KSUA"; "KXYZ"] "metric")))
           telegraf.empty).
  - vm_compute. reflexivity.
  - intros station addr Hin Haddr.
    assert (StationID (fst (Test.Init (Test.config ["KSUA"; "KXYZ"] "metric")))
            = ["KSUA"; "KXYZ"]) as Hst by (vm_compute; reflexivity).
    rewrite Hst in Hin. clear Hst.
    apply elem_of_cons in Hin as [-> | Hin].
    { vm_compute in Haddr. injection Haddr as <-.
      eexists. vm_compute. reflexivity. }
    apply elem_of_cons in Hin as [-> | Hin].
    { vm_compute in Haddr. injection Haddr as <-.
      eexists. vm_compute. reflexivity. }
    now apply elem_of_nil in Hin.
Defined.

Lemma Gather_one_call_per_station_witness :
  exists acc' err,
    Gather Test.url_Parse Test.client_Do Test.mime_ParseMediaType
      Test.json_Decode Test.time_Parse
      (fst (Test.Init (Test.config ["KSUA"; "KXYZ"] "metric")))
      telegraf.empty (Done (acc', err))
    /\ length (telegraf.Metrics acc') + length (telegraf.Errors acc')
       + length (filter (fun o => undated Test.time_Parse o = true)
                   [inl Test.sampleStatus;
                    inr "http://127.0.0.1:8080/stations/KXYZ/observations/latest?require_qc=false returned HTTP status 404 Not Found"])
       = length (telegraf.Metrics telegraf.empty)
         + length (telegraf.Errors telegraf.empty)
         + length (StationID (fst (Test.Init (Test.config ["KSUA"; "KXYZ"] "metric")))).
Proof.
  pose proof (Gather_in_order_runs Test.url_Parse Test.client_Do
                Test.mime_ParseMediaType Test.json_Decode Test.time_Parse
                (fst (Test.Init (Test.config ["KSUA"; "KXYZ"] "metric")))
                telegraf.empty) as Hrun.
  destruct (Gather_in_order _ _ _ _ _ _ _) as [[acc' err] |] eqn:E;
    [| vm_compute in E; discriminate E].
  exists acc', err. split; [exact Hrun |].
  apply (Gather_one_call_per_station Test.url_Parse Test.client_Do
           Test.mime_ParseMediaType Test.json_Decode Test.time_Parse
           (fst (Test.Init (Test.config ["KSUA"; "KXYZ"] "metric")))
           telegraf.empty acc' err); [vm_compute; reflexivity | exact Hrun].
Defined.

(** Twice the same station: two metrics, not one. *)
Lemma Gather_accumulator_content_witness :
  exists acc' err,
    Gather Test.url_Parse Test.client_Do Test.mime_ParseMediaType
      Test.json_Decode Test.time_Parse
      (fst (Test.Init (Test.config ["KSUA"; "KXYZ"; "KSUA"] "metric")))
      telegraf.empty (Done (acc', err))
    /\ Permutation (telegraf.Metrics acc')
         (telegraf.Metrics telegraf.empty
            ++ flat_map
                 (fun o : Status + error =>
                    match o with
                    | inl status =>
                        match Test.time_Parse layout (Timestamp status) with
                        | inl tm =>
                            [telegraf.mkMetric "noaa_weather"
                               (weather_fields
                                  (fst (Test.Init
                                          (Test.config ["KSUA"; "KXYZ"; "KSUA"] "metric")))
                                  status)
                               {[ "station" := "KSUA" ]} tm]
                        | inr _ => []
                        end
                    | inr _ => []
                    end)
                 [inl Test.sampleStatus;
                  inr "http://127.0.0.1:8080/stations/KXYZ/observations/latest?require_qc=false returned HTTP status 404 Not Found";
                  inl Test.sampleStatus])
    /\ Permutation (telegraf.Errors acc')
         (telegraf.Errors telegraf.empty
            ++ flat_map
                 (fun o : Status + error =>
                    match o with
                    | inl _ => []
                    | inr e => [e]
                    end)
                 [inl Test.sampleStatus;
                  inr "http://127.0.0.1:8080/stations/KXYZ/observations/latest?require_qc=false returned HTTP status 404 Not Found";
                  inl Test.sampleStatus])
    /\ err = None.
Proof.
  pose proof (Gather_in_order_runs Test.url_Parse Test.client_Do
                Test.mime_ParseMediaType Test.json_Decode Test.time_Parse
                (fst (Test.Init (Test.config ["KSUA"; "KXYZ"; "KSUA"] "metric")))
                telegraf.empty) as Hrun.
  destruct (Gather_in_order _ _ _ _ _ _ _) as [[acc' err] |] eqn:E;
    [| vm_compute in E; discriminate E].
  exists acc', err. split; [exact Hrun |].
  apply (Gather_accumulator_content Test.url_Parse Test.client_Do
           Test.mime_ParseMediaType Test.json_Decode Test.time_Parse
           (fst (Test.Init (Test.config ["KSUA"; "KXYZ"; "KSUA"] "metric")))
           telegraf.empty acc' err); [vm_compute; reflexivity | exact Hrun].
Defined.

(** ** More on addresses *)

Lemma append_assoc (a b c : string) : (a ++ b) ++ c = a ++ b ++ c.
Proof.
  induction a as [| x a IH]; [reflexivity |].
  change (String x ((a ++ b) ++ c) = String x (a ++ b ++ c)). now rewrite IH.
Qed.

Lemma Sprintf_observation_path (a : string) :
  fmt.Sprintf observation_path a = "/stations/" ++ a ++ "/observations/latest".
Proof. reflexivity. Qed.

Lemma escape_app (s t : string) (mode : url.encoding) :
  url.escape (s ++ t) mode = url.escape s mode ++ url.escape t mode.
Proof.
  induction s as [| c s IH]; [reflexivity |].
  change (String c s ++ t) with (String c (s ++ t)). cbn [url.escape].
  rewrite IH. destruct (url.shouldEscape c mode); [| reflexivity].
  destruct (Ascii.eqb c " " && url.encoding_eqb mode url.encodeQueryComponent);
    reflexivity.
Qed.

(** The escaped path of a reference with no raw path and a path that
    starts with a slash is the escaped path, slash first. *)
Lemma EscapedPath_abs (ref : url.URL) (p : string) :
  url.RawPath ref = "" -> url.Path ref = String "/" p ->
  url.EscapedPath ref = String "/" (url.escape p url.encodePath).
Proof.
  intros Hraw Hpath. unfold url.EscapedPath. rewrite Hraw, Hpath. cbn.
  destruct p; reflexivity.
Qed.

Lemma resolvePath_abs (base p : string) :
  url.resolvePath base (String "/" p) = url.resolvePath "" (String "/" p).
Proof. reflexivity. Qed.

(** Resolving a reference that is only an absolute path and a query
    takes the scheme and the authority from the base and nothing else. *)
Lemma ResolveReference_abs_path (base ref : url.URL) (p : string) :
  url.Scheme ref = "" -> url.Host ref = "" -> url.User ref = None ->
  url.Opaque ref = "" -> url.RawPath ref = "" -> url.Path ref = String "/" p ->
  url.ResolveReference base ref
  = url.set_path_or_keep
      (url.mkURL (url.Scheme base) "" (url.User base) (url.Host base)
         (String "/" p) "" (url.OmitHost ref) (url.ForceQuery ref)
         (url.RawQuery ref) (url.Fragment ref) (url.RawFragment ref))
      (url.resolvePath "" (String "/" (url.escape p url.encodePath))).
Proof.
  intros Hs Hh Hu Ho Hraw Hpath. unfold url.ResolveReference.
  rewrite (EscapedPath_abs ref p Hraw Hpath), resolvePath_abs.
  rewrite Hs, Hh, Hu, Ho, Hraw, Hpath. reflexivity.
Qed.

(** X16: the address of a station depends on the base URL only through
    its scheme, user information and host: a path, query or fragment in
    the configured base URL is dropped, because the path template is
    absolute. *)
Theorem formatURL_drops_base_path :
  forall (n n' : NOAAWeatherAPI) (base base' : url.URL) (station : string),
    baseParsedURL n = Some base ->
    baseParsedURL n' = Some base' ->
    url.Scheme base = url.Scheme base' ->
    url.User base = url.User base' ->
    url.Host base = url.Host base' ->
    formatURL n observation_path station = formatURL n' observation_path station.
Proof.
  intros n n' base base' station Hn Hn' Hs Hu Hh.
  unfold formatURL. rewrite Hn, Hn', Sprintf_observation_path.
  set (p := "stations/" ++ url.PathEscape station ++ "/observations/latest").
  change ("/stations/" ++ url.PathEscape station ++ "/observations/latest")
    with (String "/" p).
  rewrite !(ResolveReference_abs_path _ _ p) by reflexivity.
  cbn [url.OmitHost url.ForceQuery url.RawQuery url.Fragment url.RawFragment].
  now rewrite Hs, Hu, Hh.
Qed.

Lemma alnum_facts (c : ascii) :
  alnum c = true ->
  (forall mode, url.shouldEscape c mode = false)
  /\ Ascii.eqb c "/" = false /\ Ascii.eqb c "." = false
  /\ Ascii.eqb c "%" = false /\ Ascii.eqb c "+" = false.
Proof.
  intros H. split; [| revert H].
  - intros mode. unfold url.shouldEscape. unfold alnum in H. now rewrite H.
  - destruct c as [[] [] [] [] [] [] [] []]; vm_compute; intros; try discriminate;
      auto.
Qed.

Lemma escape_alnum (s : string) (mode : url.encoding) :
  alnum_string s = true -> url.escape s mode = s.
Proof.
  induction s as [| c s IH]; [reflexivity |].
  cbn [alnum_string url.escape].
  intros [Hc Hs]%andb_true_iff.
  destruct (alnum_facts c Hc) as (-> & _). now rewrite IH.
Qed.

Lemma unescape_path_step (c : ascii) (rest : string) :
  Ascii.eqb c "%" = false -> Ascii.eqb c "+" = false ->
  url.unescape (String c rest) url.encodePath
  = option_map (String c) (url.unescape rest url.encodePath).
Proof.
  intros Hp Hq.
  destruct c as [[] [] [] [] [] [] [] []].
  all: try discriminate Hp.
  all: try discriminate Hq.
  all: reflexivity.
Qed.

Lemma unescape_alnum (s rest : string) :
  alnum_string s = true ->
  url.unescape (s ++ rest) url.encodePath
  = option_map (String.append s) (url.unescape rest url.encodePath).
Proof.
  induction s as [| c s IH]; intros Hs.
  - change ("" ++ rest) with rest. now destruct (url.unescape rest _).
  - cbn [alnum_string] in Hs. apply andb_true_iff in Hs as [Hc Hs].
    destruct (alnum_facts c Hc) as (_ & _ & _ & Hp & Hq).
    change (String c s ++ rest) with (String c (s ++ rest)).
    rewrite (unescape_path_step c _ Hp Hq), (IH Hs).
    now destruct (url.unescape rest _).
Qed.

Lemma Split_alnum (s rest : string) :
  alnum_string s = true ->
  strings.Split (s ++ String "/" rest) "/" = s :: strings.Split rest "/".
Proof.
  induction s as [| c s IH]; intros Hs; [reflexivity |].
  cbn [alnum_string] in Hs. apply andb_true_iff in Hs as [Hc Hs].
  destruct (alnum_facts c Hc) as (_ & Hslash & _).
  change (String c s ++ String "/" rest) with (String c (s ++ String "/" rest)).
  cbn [strings.Split]. now rewrite Hslash, (IH Hs).
Qed.

Lemma alnum_not_dots (s : string) :
  alnum_string s = true ->
  String.eqb s "." = false /\ String.eqb s ".." = false.
Proof.
  destruct s as [| c s]; [auto |]. cbn [alnum_string].
  intros [Hc _]%andb_true_iff.
  destruct (alnum_facts c Hc) as (_ & _ & Hdot & _).
  cbn [String.eqb]. now rewrite Hdot.
Qed.

(** The path of the request for a station of letters and digits goes
    through resolution unchanged. *)
Lemma resolvePath_observation (a : string) :
  alnum_string a = true ->
  url.resolvePath "" ("/stations/" ++ a ++ "/observations/latest")
  = "/stations/" ++ a ++ "/observations/latest".
Proof.
  intros Ha. destruct (alnum_not_dots a Ha) as [Hdot Hdots].
  unfold url.resolvePath.
  change ("/stations/" ++ a ++ "/observations/latest")
    with (String "/" ("stations" ++ String "/" (a ++ String "/" "observations/latest"))).
  cbv iota beta.
  change (String.eqb (String "/" ?x) "") with false.
  cbv iota.
  change (strings.Split
            (String "/"
               ("stations" ++ String "/" (a ++ String "/" "observations/latest")))
            "/")
    with ("" :: strings.Split
                  ("stations" ++ String "/" (a ++ String "/" "observations/latest"))
                  "/").
  rewrite (Split_alnum "stations") by reflexivity.
  rewrite (Split_alnum a) by exact Ha.
  change (strings.Split "observations/latest" "/") with ["observations"; "latest"].
  cbv zeta. cbn [url.resolve_elems List.last].
  rewrite Hdot, Hdots.
  change (String.eqb "" ".") with false. change (String.eqb "" "..") with false.
  change (String.eqb "stations" ".") with false.
  change (String.eqb "stations" "..") with false.
  change (String.eqb "observations" ".") with false.
  change (String.eqb "observations" "..") with false.
  change (String.eqb "latest" ".") with false.
  change (String.eqb "latest" "..") with false.
  cbv iota. cbn [orb].
  rewrite !append_assoc, append_empty_r. reflexivity.
Qed.

Lemma escape_observation (a : string) :
  alnum_string a = true ->
  url.escape ("/stations/" ++ a ++ "/observations/latest") url.encodePath
  = "/stations/" ++ a ++ "/observations/latest".
Proof.
  intros Ha. rewrite !escape_app, (escape_alnum a _ Ha). reflexivity.
Qed.

Lemma unescape_observation (a : string) :
  alnum_string a = true ->
  url.unescape ("/stations/" ++ a ++ "/observations/latest") url.encodePath
  = Some ("/stations/" ++ a ++ "/observations/latest").
Proof.
  intros Ha.
  change ("/stations/" ++ a ++ "/observations/latest")
    with (String "/" ("stations" ++ String "/" (a ++ String "/" "observations/latest"))).
  rewrite (unescape_path_step "/") by reflexivity.
  rewrite (unescape_alnum "stations") by reflexivity.
  rewrite (unescape_path_step "/") by reflexivity.
  rewrite (unescape_alnum a) by exact Ha.
  rewrite (unescape_path_step "/") by reflexivity.
  reflexivity.
Qed.

Lemma eqb_nonempty (s : string) : s <> "" -> String.eqb s "" = false.
Proof. intros H. now apply String.eqb_neq. Qed.

(** X17: for a base URL with a scheme, a host that needs no escaping and
    no user information, and a station made of letters and digits, the
    address is the scheme, [://], the host, [/stations/], the station as
    it is and [/observations/latest?require_qc=false]. *)
Theorem formatURL_alnum_station :
  forall (n : NOAAWeatherAPI) (base : url.URL) (station : string),
    baseParsedURL n = Some base ->
    url.Scheme base <> "" ->
    url.Host base <> "" ->
    url.User base = None ->
    url.escape (url.Host base) url.encodeHost = url.Host base ->
    alnum_string station = true ->
    formatURL n observation_path station
    = Done (url.Scheme base ++ "://" ++ url.Host base ++ "/stations/" ++ station
              ++ "/observations/latest?require_qc=false").
Proof.
  intros n base station Hn Hscheme Hhost Huser Hesc Ha.
  unfold formatURL. rewrite Hn, Sprintf_observation_path.
  unfold url.PathEscape. rewrite (escape_alnum station _ Ha).
  assert (url.Values_Encode {[ "require_qc" := ["false"] ]} = "require_qc=false")
    as -> by (vm_compute; reflexivity).
  set (p := "stations/" ++ station ++ "/observations/latest").
  change ("/stations/" ++ station ++ "/observations/latest") with (String "/" p).
  rewrite (ResolveReference_abs_path _ _ p) by reflexivity.
  cbn [url.OmitHost url.ForceQuery url.RawQuery url.Fragment url.RawFragment].
  change (String "/" (url.escape p url.encodePath))
    with (url.escape ("/stations/" ++ station ++ "/observations/latest")
            url.encodePath).
  rewrite (escape_observation station Ha), (resolvePath_observation station Ha).
  unfold url.set_path_or_keep, url.setPath.
  rewrite (unescape_observation station Ha), (escape_observation station Ha).
  rewrite String.eqb_refl. unfold url.with_path.
  cbn [url.Scheme url.Opaque url.User url.Host url.OmitHost url.ForceQuery
       url.RawQuery url.Fragment url.RawFragment].
  rewrite Huser. f_equal. unfold url.String_, url.EscapedPath.
  cbn [url.Scheme url.Opaque url.User url.Host url.Path url.RawPath url.OmitHost
       url.ForceQuery url.RawQuery url.Fragment url.RawFragment url.isSet].
  rewrite Hesc, (escape_observation station Ha).
  rewrite (eqb_nonempty _ Hscheme), (eqb_nonempty _ Hhost).
  destruct (url.Scheme base) as [| c s] eqn:Hs; [congruence |].
  change ("/stations/" ++ station ++ "/observations/latest")
    with (String "/" p).
  simpl. subst p.
  change (String "/" ("stations/" ++ station ++ "/observations/latest"))
    with ("/stations/" ++ station ++ "/observations/latest").
  rewrite !append_assoc. reflexivity.
Qed.

Lemma formatURL_alnum_station_witness :
  formatURL (fst (Test.Init foo_com_config)) observation_path "KJFK"
  = Done (url.Scheme foo_com ++ "://" ++ url.Host foo_com ++ "/stations/" ++ "KJFK"
            ++ "/observations/latest?require_qc=false").
Proof.
  apply (formatURL_alnum_station (fst (Test.Init foo_com_config)) foo_com "KJFK");
    try reflexivity; discriminate.
Defined.

Lemma formatURL_drops_base_path_witness :
  formatURL
    (fst (Test.Init (mkNOAAWeatherAPI [] "http://foo.com/api/v1?key=1" 0 "" "" None None)))
    observation_path "KSUA"
  = formatURL (fst (Test.Init foo_com_config)) observation_path "KSUA".
Proof.
  apply (formatURL_drops_base_path _ _
           (url.mkURL "http" "" None "foo.com" "/api/v1" "" false false "key=1" "" "")
           foo_com "KSUA"); reflexivity.
Defined.

(** ** The fields of a metric *)

(** X18: a metric always has the same seven fields, whatever the
    observation holds; pressure, dewpoint, humidity and wind direction
    are the readings as received, never converted, whatever the unit
    system and whatever their unit codes say (a dewpoint in degrees
    Celsius stays in Celsius under [imperial]); temperature, visibility
    and wind speed go through the converter. *)
Theorem weather_fields_content :
  forall (n : NOAAWeatherAPI) (status : Status),
    dom (weather_fields n status)
    = ({[ "pressure"; "dewpoint"; "temperature"; "humidity"; "visibility";
          "wind_degrees"; "wind_speed" ]} : gset string)
    /\ weather_fields n status !! "pressure" = Some (Value (BarometricPressure status))
    /\ weather_fields n status !! "dewpoint" = Some (Value (Dewpoint status))
    /\ weather_fields n status !! "humidity" = Some (Value (Humidity status))
    /\ weather_fields n status !! "wind_degrees" = Some (Value (WindDirection status))
    /\ weather_fields n status !! "temperature"
       = Some (UnitConversion n (Temperature status))
    /\ weather_fields n status !! "visibility"
       = Some (UnitConversion n (Visibility status))
    /\ weather_fields n status !! "wind_speed"
       = Some (UnitConversion n (WindSpeed status)).
Proof.
  intros n status. unfold weather_fields.
  generalize (UnitConversion n (Temperature status)) as t.
  generalize (UnitConversion n (Visibility status)) as v.
  generalize (UnitConversion n (WindSpeed status)) as w.
  generalize (Value (BarometricPressure status)) as p.
  generalize (Value (Dewpoint status)) as d.
  generalize (Value (Humidity status)) as h.
  generalize (Value (WindDirection status)) as wd.
  intros. split; [| repeat split; vm_compute; reflexivity].
  cbn [list_to_map foldr fst snd]. rewrite !dom_insert_L, dom_empty_L.
  set_solver.
Qed.

(** X19: under a unit system other than [imperial] the seven fields are
    the seven readings as received. *)
Theorem weather_fields_not_imperial :
  forall (n : NOAAWeatherAPI) (status : Status),
    Units n <> "imperial" ->
    weather_fields n status
    = list_to_map
        [ ("pressure", Value (BarometricPressure status));
          ("dewpoint", Value (Dewpoint status));
          ("temperature", Value (Temperature status));
          ("humidity", Value (Humidity status));
          ("visibility", Value (Visibility status));
          ("wind_degrees", Value (WindDirection status));
          ("wind_speed", Value (WindSpeed status)) ].
Proof.
  intros n status Hu. apply String.eqb_neq in Hu. unfold weather_fields.
  now rewrite !(UnitConversion_not_imperial n _ Hu).
Qed.

Lemma weather_fields_not_imperial_witness :
  weather_fields (Test.config ["KSUA"] "metric") Test.sampleStatus
  = list_to_map
      [ ("pressure", Value (BarometricPressure Test.sampleStatus));
        ("dewpoint", Value (Dewpoint Test.sampleStatus));
        ("temperature", Value (Temperature Test.sampleStatus));
        ("humidity", Value (Humidity Test.sampleStatus));
        ("visibility", Value (Visibility Test.sampleStatus));
        ("wind_degrees", Value (WindDirection Test.sampleStatus));
        ("wind_speed", Value (WindSpeed Test.sampleStatus)) ].
Proof.
  apply (weather_fields_not_imperial (Test.config ["KSUA"] "metric")
           Test.sampleStatus).
  discriminate.
Defined.

(** X20: the converter passes the special values through: a NaN reading
    converts to NaN and an infinite reading to the same infinity, for
    every unit code and every unit system. *)
Theorem UnitConversion_special_values :
  forall (n : NOAAWeatherAPI) (code qc : string),
    UnitConversion n (mkApiValue code nan qc) = nan
    /\ UnitConversion n (mkApiValue code infinity qc) = infinity
    /\ UnitConversion n (mkApiValue code neg_infinity qc) = neg_infinity.
Proof.
  intros n code qc. unfold UnitConversion. cbn [UnitCode Value].
  destruct (String.eqb (Units n) "imperial");
    destruct (String.eqb code "wmoUnit:degC");
    destruct (String.eqb code "wmoUnit:km_h-1");
    destruct (String.eqb code "wmoUnit:m");
    repeat split; vm_compute; reflexivity.
Qed.

(** ** What a fetch sends, and a reply without a content type *)

Section FetchMore.

Variable url_Parse : string -> url.URL + error.
Variable mime_ParseMediaType : string -> string + error.
Variable json_Decode : string -> Status + error.
Variable time_Parse : string -> string -> time.Time + error.

(** X10: a fetch asks the remote end one thing only, through the
    receiver's client: a GET for the parsed address, an empty port
    stripped from its host as [http.NewRequest] does, whose headers are
    exactly [Accept: application/ld+json] and [User-Agent:] the
    configured agent.  Two remote ends that answer such requests alike
    give the same fetch result. *)
Theorem gatherURL_request :
  forall (Do1 Do2 : nat -> http.Client -> http.Request -> http.Response + error)
         (n : NOAAWeatherAPI) (i : nat) (addr : string),
    (forall c u req,
        client n = Some c ->
        url_Parse addr = inl u ->
        http.Method req = "GET" ->
        http.URL req = http.with_Host u (http.removeEmptyPort (url.Host u)) ->
        http.Host req = http.removeEmptyPort (url.Host u) ->
        http.ReqHeader req !! "Accept" = Some ["application/ld+json"] ->
        http.ReqHeader req !! "User-Agent" = Some [UserAgent n] ->
        dom (http.ReqHeader req) = ({[ "Accept"; "User-Agent" ]} : gset string) ->
        Do1 i c req = Do2 i c req) ->
    gatherURL url_Parse Do1 mime_ParseMediaType json_Decode n i addr
    = gatherURL url_Parse Do2 mime_ParseMediaType json_Decode n i addr.
Proof.
  intros Do1 Do2 n i addr Hsame. rewrite !gatherURL_unfold.
  destruct (url_Parse addr) as [u | e] eqn:Hu; [| reflexivity].
  destruct (client n) as [c |] eqn:Hc; [| reflexivity].
  destruct (observation_request_headers n u) as (Hm & Hurl & Ha & Hua & _ & Hdom).
  rewrite (Hsame c u (observation_request n u)); auto.
Qed.

(** X21: a reply with status 200 and no [Content-Type] header is handed
    to the media-type parser as the empty string; when the parser
    refuses it, the station's goroutine reports that error, as it is,
    and adds no metric. *)
Theorem goroutine_missing_content_type :
  forall (client_Do : nat -> http.Client -> http.Request -> http.Response + error)
         (n : NOAAWeatherAPI) (i : nat) (addr : string) (u : url.URL)
         (c : http.Client) (resp : http.Response) (err : error)
         (acc : telegraf.Accumulator),
    url_Parse addr = inl u ->
    client n = Some c ->
    client_Do i c (observation_request n u) = inl resp ->
    http.StatusCode resp = 200%Z ->
    http.Header resp !! "Content-Type" = None ->
    mime_ParseMediaType "" = inr err ->
    goroutine url_Parse client_Do mime_ParseMediaType json_Decode time_Parse
      n i addr acc
    = Done (telegraf.mkAccumulator (telegraf.Metrics acc)
              (telegraf.Errors acc ++ [err])%list).
Proof.
  intros client_Do n i addr u c resp err acc Hu Hc Hdo Hcode Hnone Hmime.
  unfold goroutine. rewrite gatherURL_unfold, Hu, Hc, Hdo, Hcode.
  unfold http.Header_Get. rewrite Hnone, Hmime. reflexivity.
Qed.

End FetchMore.

Lemma gatherURL_request_witness :
  gatherURL Test.url_Parse Test.client_Do Test.mime_ParseMediaType Test.json_Decode
    (fst (Test.Init (Test.config ["KSUA"] "metric"))) 0
    "http://127.0.0.1:8080/stations/KSUA/observations/latest?require_qc=false"
  = gatherURL Test.url_Parse get_only_Do Test.mime_ParseMediaType Test.json_Decode
      (fst (Test.Init (Test.config ["KSUA"] "metric"))) 0
      "http://127.0.0.1:8080/stations/KSUA/observations/latest?require_qc=false".
Proof.
  apply (gatherURL_request Test.url_Parse Test.mime_ParseMediaType Test.json_Decode
           Test.client_Do get_only_Do).
  intros c u req _ _ Hmethod _ _ _ _ _. unfold get_only_Do. now rewrite Hmethod.
Defined.

Lemma goroutine_missing_content_type_witness :
  goroutine Test.url_Parse untyped_Do Test.mime_ParseMediaType Test.json_Decode
    Test.time_Parse (fst (Test.Init (Test.config ["KSUA"] "metric"))) 0
    "http://127.0.0.1:8080/stations/KSUA/observations/latest?require_qc=false"
    telegraf.empty
  = Done (telegraf.mkAccumulator (telegraf.Metrics telegraf.empty)
            (telegraf.Errors telegraf.empty ++ ["mime: no media type"])%list).
Proof.
  apply (goroutine_missing_content_type Test.url_Parse Test.mime_ParseMediaType
           Test.json_Decode Test.time_Parse untyped_Do
           (fst (Test.Init (Test.config ["KSUA"] "metric"))) 0
           "http://127.0.0.1:8080/stations/KSUA/observations/latest?require_qc=false"
           (url.mkURL "http" "" None "127.0.0.1:8080"
              "/stations/KSUA/observations/latest" "" false false
              "require_qc=false" "" "")
           (http.mkClient 5000000000)
           (http.mkResponse "200 OK" 200 ∅ Test.sampleStatusResponse)
           "mime: no media type" telegraf.empty);
    vm_compute; reflexivity.
Defined.

(** ** The station in the address *)

Lemma escape_cons (c : ascii) (rest : string) (mode : url.encoding) :
  url.encoding_eqb mode url.encodeQueryComponent = false ->
  url.escape (String c rest) mode
  = if url.shouldEscape c mode
    then String "%"
           (String (url.upperhex (N.shiftr (N_of_ascii c) 4))
              (String (url.upperhex (N.land (N_of_ascii c) 15))
                 (url.escape rest mode)))
    else String c (url.escape rest mode).
Proof. intros Hm. cbn [url.escape]. now rewrite Hm, andb_false_r. Qed.

Lemma escape_empty_inv (s : string) (mode : url.encoding) :
  url.encoding_eqb mode url.encodeQueryComponent = false ->
  url.escape s mode = "" -> s = "".
Proof.
  intros Hm. destruct s as [| c rest]; [reflexivity |].
  rewrite (escape_cons c rest mode Hm).
  destruct (url.shouldEscape c mode); discriminate.
Qed.

(** Escaping neither makes nor unmakes a dot segment. *)
Lemma escape_dot_inv (s : string) (mode : url.encoding) :
  url.encoding_eqb mode url.encodeQueryComponent = false ->
  (url.escape s mode = "." -> s = ".")
  /\ (url.escape s mode = ".." -> s = "..").
Proof.
  intros Hm.
  assert (forall t, url.escape t mode = "." -> t = ".") as Hdot.
  { intros [| c rest]; [discriminate |].
    rewrite (escape_cons c rest mode Hm).
    destruct (url.shouldEscape c mode); [discriminate |].
    intros [= -> Hrest]. now rewrite (escape_empty_inv rest mode Hm Hrest). }
  split; [apply Hdot |].
  destruct s as [| c rest]; [discriminate |].
  rewrite (escape_cons c rest mode Hm).
  destruct (url.shouldEscape c mode); [discriminate |].
  intros [= -> Hrest]. now rewrite (Hdot rest Hrest).
Qed.

Lemma no_slash_escape_segment (s : string) :
  no_slash (url.escape s url.encodePathSegment) = true.
Proof.
  induction s as [| c s IH]; [reflexivity |].
  transitivity (no_slash (url.escape s url.encodePathSegment)); [| exact IH].
  clear IH. destruct c as [[] [] [] [] [] [] [] []]; reflexivity.
Qed.

Lemma no_slash_escape_path (s : string) :
  no_slash s = true -> no_slash (url.escape s url.encodePath) = true.
Proof.
  induction s as [| c s IH]; [reflexivity |].
  cbn [no_slash]. intros [Hc Hs]%andb_true_iff.
  transitivity (no_slash (url.escape s url.encodePath)); [| exact (IH Hs)].
  clear IH Hs. apply negb_true_iff in Hc.
  destruct c as [[] [] [] [] [] [] [] []]; try discriminate Hc; reflexivity.
Qed.

Lemma unescape_escape_byte (c : ascii) (tail : string) :
  url.unescape (url.escape (String c "") url.encodePath ++ tail) url.encodePath
  = option_map (String c) (url.unescape tail url.encodePath).
Proof. destruct c as [[] [] [] [] [] [] [] []]; reflexivity. Qed.

(** Unescaping undoes the escaping of a path. *)
Lemma unescape_escape (e tail : string) :
  url.unescape (url.escape e url.encodePath ++ tail) url.encodePath
  = option_map (String.append e) (url.unescape tail url.encodePath).
Proof.
  revert tail. induction e as [| c e IH]; intros tail.
  - change (url.escape "" url.encodePath ++ tail) with tail.
    now destruct (url.unescape tail _).
  - change (String c e) with (String c "" ++ e) at 1.
    rewrite escape_app, append_assoc, unescape_escape_byte, IH.
    now destruct (url.unescape tail _).
Qed.

Lemma Split_no_slash (s rest : string) :
  no_slash s = true ->
  strings.Split (s ++ String "/" rest) "/" = s :: strings.Split rest "/".
Proof.
  induction s as [| c s IH]; intros Hs; [reflexivity |].
  cbn [no_slash] in Hs. apply andb_true_iff in Hs as [Hc Hs].
  apply negb_true_iff in Hc.
  change (String c s ++ String "/" rest) with (String c (s ++ String "/" rest)).
  cbn [strings.Split]. now rewrite Hc, (IH Hs).
Qed.

(** A path whose station segment holds no slash and is no dot segment
    goes through resolution unchanged. *)
Lemma resolvePath_segment (g : string) :
  no_slash g = true -> g <> "." -> g <> ".." ->
  url.resolvePath "" ("/stations/" ++ g ++ "/observations/latest")
  = "/stations/" ++ g ++ "/observations/latest".
Proof.
  intros Hg Hdot%String.eqb_neq Hdots%String.eqb_neq.
  unfold url.resolvePath.
  change ("/stations/" ++ g ++ "/observations/latest")
    with (String "/" ("stations" ++ String "/" (g ++ String "/" "observations/latest"))).
  cbv iota beta.
  change (String.eqb (String "/" ?x) "") with false.
  cbv iota.
  change (strings.Split
            (String "/"
               ("stations" ++ String "/" (g ++ String "/" "observations/latest")))
            "/")
    with ("" :: strings.Split
                  ("stations" ++ String "/" (g ++ String "/" "observations/latest"))
                  "/").
  rewrite (Split_no_slash "stations") by reflexivity.
  rewrite (Split_no_slash g) by exact Hg.
  change (strings.Split "observations/latest" "/") with ["observations"; "latest"].
  cbv zeta. cbn [url.resolve_elems List.last].
  rewrite Hdot, Hdots.
  change (String.eqb "" ".") with false. change (String.eqb "" "..") with false.
  change (String.eqb "stations" ".") with false.
  change (String.eqb "stations" "..") with false.
  change (String.eqb "observations" ".") with false.
  change (String.eqb "observations" "..") with false.
  change (String.eqb "latest" ".") with false.
  change (String.eqb "latest" "..") with false.
  cbv iota. cbn [orb].
  rewrite !append_assoc, append_empty_r. reflexivity.
Qed.

Lemma escape_station_path (e : string) :
  url.escape ("/stations/" ++ e ++ "/observations/latest") url.encodePath
  = "/stations/" ++ url.escape e url.encodePath ++ "/observations/latest".
Proof. rewrite !escape_app. reflexivity. Qed.

Lemma unescape_station_path (e : string) :
  url.unescape
    ("/stations/" ++ url.escape e url.encodePath ++ "/observations/latest")
    url.encodePath
  = Some ("/stations/" ++ e ++ "/observations/latest").
Proof.
  change ("/stations/" ++ url.escape e url.encodePath ++ "/observations/latest")
    with (String "/"
            ("stations"
               ++ String "/" (url.escape e url.encodePath ++ "/observations/latest"))).
  rewrite (unescape_path_step "/") by reflexivity.
  rewrite (unescape_alnum "stations") by reflexivity.
  rewrite (unescape_path_step "/") by reflexivity.
  rewrite unescape_escape. reflexivity.
Qed.

(** C8 fails on the code for a station that needs escaping.  The address
    does end in [?require_qc=false], and for KSUA it is the one the claim
    gives; but the station segment of the address is not the
    path-escaped station: [formatURL] stores the escaped text in the
    decoded [Path] field of the reference, so printing the URL escapes
    it again and every [%] of the first escaping becomes [%25].  For a
    base URL with a scheme, a plain host and no user information, and
    every station other than the dot segments, the address is the
    scheme, [://], the host, [/stations/], the station escaped twice
    and [/observations/latest?require_qc=false]. *)
Theorem formatURL_escapes_station_twice :
  forall (n : NOAAWeatherAPI) (base : url.URL) (station : string),
    baseParsedURL n = Some base ->
    url.Scheme base <> "" ->
    url.Host base <> "" ->
    url.User base = None ->
    url.escape (url.Host base) url.encodeHost = url.Host base ->
    station <> "." ->
    station <> ".." ->
    formatURL n observation_path station
    = Done (url.Scheme base ++ "://" ++ url.Host base ++ "/stations/"
              ++ url.escape (url.PathEscape station) url.encodePath
              ++ "/observations/latest?require_qc=false").
Proof.
  intros n base station Hn Hscheme Hhost Huser Hesc Hdot Hdots.
  assert (no_slash (url.escape (url.PathEscape station) url.encodePath) = true)
    as Hns by (apply no_slash_escape_path, no_slash_escape_segment).
  assert (url.escape (url.PathEscape station) url.encodePath <> ".") as Hg.
  { intros H. apply Hdot.
    apply (proj1 (escape_dot_inv _ url.encodePath eq_refl)) in H.
    unfold url.PathEscape in H.
    now apply (proj1 (escape_dot_inv _ url.encodePathSegment eq_refl)) in H. }
  assert (url.escape (url.PathEscape station) url.encodePath <> "..") as Hgg.
  { intros H. apply Hdots.
    apply (proj2 (escape_dot_inv _ url.encodePath eq_refl)) in H.
    unfold url.PathEscape in H.
    now apply (proj2 (escape_dot_inv _ url.encodePathSegment eq_refl)) in H. }
  unfold formatURL. rewrite Hn, Sprintf_observation_path.
  assert (url.Values_Encode {[ "require_qc" := ["false"] ]} = "require_qc=false")
    as -> by (vm_compute; reflexivity).
  revert Hns Hg Hgg. generalize (url.PathEscape station) as e.
  intros e Hns Hg Hgg.
  set (p := "stations/" ++ e ++ "/observations/latest").
  change ("/stations/" ++ e ++ "/observations/latest") with (String "/" p).
  rewrite (ResolveReference_abs_path _ _ p) by reflexivity.
  cbn [url.OmitHost url.ForceQuery url.RawQuery url.Fragment url.RawFragment].
  change (String "/" (url.escape p url.encodePath))
    with (url.escape ("/stations/" ++ e ++ "/observations/latest") url.encodePath).
  rewrite (escape_station_path e), (resolvePath_segment _ Hns Hg Hgg).
  unfold url.set_path_or_keep, url.setPath.
  rewrite (unescape_station_path e), (escape_station_path e).
  rewrite String.eqb_refl. unfold url.with_path.
  cbn [url.Scheme url.Opaque url.User url.Host url.OmitHost url.ForceQuery
       url.RawQuery url.Fragment url.RawFragment].
  rewrite Huser. f_equal. unfold url.String_, url.EscapedPath.
  cbn [url.Scheme url.Opaque url.User url.Host url.Path url.RawPath url.OmitHost
       url.ForceQuery url.RawQuery url.Fragment url.RawFragment url.isSet].
  rewrite Hesc, (escape_station_path e).
  rewrite (eqb_nonempty _ Hscheme), (eqb_nonempty _ Hhost).
  destruct (url.Scheme base) as [| c s] eqn:Hs; [congruence |].
  generalize (url.escape e url.encodePath) as g. intros g.
  change ("/stations/" ++ e ++ "/observations/latest") with (String "/" p).
  change ("/stations/" ++ g ++ "/observations/latest")
    with (String "/" ("stations/" ++ g ++ "/observations/latest")).
  simpl.
  change (String "/" ("stations/" ++ g ++ "/observations/latest"))
    with ("/stations/" ++ g ++ "/observations/latest").
  rewrite !append_assoc. reflexivity.
Qed.

(** A station with a slash, on the base of [TestFormatURL]. *)
Lemma formatURL_escapes_station_twice_witness :
  formatURL (fst (Test.Init foo_com_config)) observation_path "K/1"
  = Done (url.Scheme foo_com ++ "://" ++ url.Host foo_com ++ "/stations/"
            ++ url.escape (url.PathEscape "K/1") url.encodePath
            ++ "/observations/latest?require_qc=false").
Proof.
  apply (formatURL_escapes_station_twice (fst (Test.Init foo_com_config))
           foo_com "K/1"); try reflexivity; discriminate.
Defined.

(** The same input spelled out: the path-escaped station is [K%2F1], the
    address holds [K%252F1]. *)
Lemma formatURL_station_with_slash :
  url.PathEscape "K/1" = "K%2F1"
  /\ formatURL (fst (Test.Init foo_com_config)) observation_path "K/1"
     = Done "http://foo.com/stations/K%252F1/observations/latest?require_qc=false"
  /\ formatURL (fst (Test.Init foo_com_config)) observation_path "K/1"
     <> Done "http://foo.com/stations/K%2F1/observations/latest?require_qc=false".
Proof.
  split; [reflexivity |]. split; [vm_compute; reflexivity |].
  vm_compute. discriminate.
Qed.

(** The host of the request: an empty port goes, a port and a bracketed
    address stay. *)
Example removeEmptyPort_examples :
  http.removeEmptyPort "foo.com:" = "foo.com"
  /\ http.removeEmptyPort "foo.com:8080" = "foo.com:8080"
  /\ http.removeEmptyPort "foo.com" = "foo.com"
  /\ http.removeEmptyPort "[::1]:" = "[::1]"
  /\ http.removeEmptyPort "[::1]" = "[::1]"
  /\ http.Host
       (observation_request foo_com_config
          (url.mkURL "http" "" None "foo.com:" "/stations/KSUA/observations/latest"
             "" false false "require_qc=false" "" ""))
     = "foo.com".
Proof. repeat split. Qed.
